(** * baseplate.go: directory watcher and secrets store

    A shallow embedding of [directorywatcher/directorywatcher.go],
    [secrets/store.go] and [secrets/config.go], followed by the error
    helpers and the server constructors of the package [thriftbp].

    Go code with side effects is written in ExtLib's state monad over a
    [Runtime]: the part of the process the callbacks act on (an abstract
    world [W]) together with a journal of the calls the code makes to
    functions it does not own (user callbacks, the logger, the fsnotify
    watcher).  Callbacks are total functions on the world: a callback that
    never returns or panics is outside the model. *)

From Stdlib Require Import String List Bool NArith ZArith.
From Stdlib Require FMapAVL OrderedTypeEx FMapFacts DecimalString.
From ExtLib Require Import Structures.Monad Data.Monads.StateMonad.
Import ListNotations.
Import MonadNotation.
Local Open Scope monad_scope.
Local Open Scope string_scope.

Set Implicit Arguments.

(** ** The runtime shared by both packages *)

Module Go.

(** A Go [error] is represented by its message, [nil] by [None]. *)
Definition error := string.

(** [(T, error)] results of fallible constructors. *)
Inductive result (A : Type) : Type :=
| Ok (a : A)
| Err (e : error).
Arguments Err {A} e.

(** What a call does: it returns, or it panics with a message. *)
Inductive outcome (A : Type) : Type :=
| Returns (a : A)
| Panics (msg : string).
Arguments Panics {A} msg.

Record Runtime (W C : Type) : Type := mkRuntime {
  world : W;
  journal : list C
}.

Section Effects.
Variables W C : Type.

(** Append one call to the journal. *)
Definition record (c : C) : state (Runtime W C) unit :=
  mkState (fun rt => (tt, mkRuntime (world rt) (journal rt ++ [c]))).

(** Run a function of the environment on the world. *)
Definition perform {A : Type} (f : W -> A * W) : state (Runtime W C) A :=
  mkState (fun rt => let (a, w') := f (world rt) in
                     (a, mkRuntime w' (journal rt))).

(** The calls a computation adds to the journal when run from [rt]. *)
Definition emitted {A : Type} (m : state (Runtime W C) A)
    (rt : Runtime W C) : list C :=
  skipn (length (journal rt)) (journal (snd (runState m rt))).

End Effects.

Arguments record {W C} c.
Arguments perform {W C A} f.
Arguments emitted {W C A} m rt.

End Go.

(** ** gopkg.in/fsnotify.v1: the part of its interface the watcher uses *)

Module Fsnotify.

(** [type Op uint32], a bit mask; the constants are [1 << iota]. *)
Definition Op := N.
Definition Create : Op := 1%N.
Definition Write : Op := 2%N.
Definition Remove : Op := 4%N.
Definition Rename : Op := 8%N.
Definition Chmod : Op := 16%N.

(** [type Event struct { Name string; Op Op }] *)
Record Event : Type := mkEvent {
  ev_Name : string;
  ev_Op : Op
}.

End Fsnotify.

(** ** directorywatcher/directorywatcher.go *)

Module DirectoryWatcher.
Import Go Fsnotify.

(** A [context.Context], as far as the watcher can tell contexts apart:
    the background context, or one that can be cancelled and whose
    [Done] channel is closed or not. *)
Inductive Context : Type :=
| Background
| Cancellable (closed : bool).

Definition Done (ctx : Context) : bool :=
  match ctx with
  | Background => false
  | Cancellable closed => closed
  end.

(** [context.WithCancel(ctx)]: the child is done as soon as the parent is. *)
Definition WithCancel (parent : Context) : Context :=
  Cancellable (Done parent).

(** What [cancel()] does to the context it belongs to. *)
Definition cancel (ctx : Context) : Context := Cancellable true.

Section Watcher.

(** The world of the callbacks and of the operating system. *)
Variable W : Type.

(** [*fsnotify.Watcher] and the three operations called on it. *)
Variable FsWatcher : Type.
Variable fsnotify_NewWatcher : W -> result FsWatcher * W.
Variable fsnotify_Add : FsWatcher -> string -> W -> option error * W.
Variable fsnotify_Close : FsWatcher -> W -> W.

Definition OnCreate : Type := string -> W -> option error * W.
Definition OnRemove : Type := string -> W -> option error * W.

(** [log.Wrapper], called through its method [Log(ctx, msg)], which also
    accepts the nil wrapper. *)
Definition Wrapper : Type := Context -> string -> W -> W.

Record Config : Type := mkConfig {
  cfgPath : string;
  cfgOnCreate : OnCreate;
  cfgOnRemove : OnRemove;
  cfgLogger : Wrapper
}.

Record directoryWatcher : Type := mkWatcher {
  ctx : Context
}.

(** The goroutine running [watcherLoop]: its receiver, its four
    arguments, and whether the function has returned. *)
Record Loop : Type := mkLoop {
  self : directoryWatcher;
  watcher : FsWatcher;
  onCreate : OnCreate;
  onRemove : OnRemove;
  logger : Wrapper;
  returned : bool
}.

Inductive Call : Type :=
| CallOnCreate (path : string)
| CallOnRemove (path : string)
| CallLog (ctx : Context) (msg : string)
| CallClose (fs : FsWatcher)
| CallGo (l : Loop).

Definition M : Type -> Type := state (Runtime W Call).

Definition invokeOnCreate (l : Loop) (path : string) : M (option error) :=
  record (CallOnCreate path) ;; perform (onCreate l path).

Definition invokeOnRemove (l : Loop) (path : string) : M (option error) :=
  record (CallOnRemove path) ;; perform (onRemove l path).

Definition Log (l : Loop) (c : Context) (msg : string) : M unit :=
  record (CallLog c msg) ;; perform (fun w => (tt, logger l c msg w)).

Definition Close (l : Loop) : M unit :=
  record (CallClose (watcher l)) ;;
  perform (fun w => (tt, fsnotify_Close (watcher l) w)).

(** [func (w *directoryWatcher) Stop()] *)
Definition Stop (w : directoryWatcher) : directoryWatcher :=
  mkWatcher (cancel (ctx w)).

(** The [switch ev.Op] of the loop: the cases compare [ev.Op] with the
    constants for equality, in order. *)
Definition dispatch (l : Loop) (ev : Event) : M unit :=
  if (ev_Op ev =? Create)%N || (ev_Op ev =? Write)%N then
    err <- invokeOnCreate l (ev_Name ev) ;;
    match err with
    | Some e =>
        Log l (ctx (self l)) ("directorywatcher: create handler error: " ++ e)
    | None => ret tt
    end
  else if (ev_Op ev =? Remove)%N || (ev_Op ev =? Rename)%N then
    err <- invokeOnRemove l (ev_Name ev) ;;
    match err with
    | Some e =>
        Log l (ctx (self l)) ("directorywatcher: remove handler error: " ++ e)
    | None => ret tt
    end
  else ret tt.

(** The case the [select] statement takes. *)
Inductive Ready : Type :=
| CtxDone
| RecvError (err : error)
| RecvEvent (ev : Event).

(** One pass through the body of [for { select { ... } }]; the result
    is [false] when the pass ends in [return]. *)
Definition iteration (l : Loop) (r : Ready) : M bool :=
  match r with
  | CtxDone => Close l ;; ret false
  | RecvError err =>
      Log l Background ("directorywatcher: watcher error: " ++ err) ;;
      ret true
  | RecvEvent ev => dispatch l ev ;; ret true
  end.

(** [watcherLoop] under a given sequence of [select] outcomes: it goes
    round the loop until a pass returns; [None] when the outcomes run
    out, the goroutine then waits in [select]. *)
Fixpoint watcherLoop (l : Loop) (sched : list Ready) : M (option unit) :=
  match sched with
  | [] => ret None
  | r :: sched' =>
      again <- iteration l r ;;
      if again : bool then watcherLoop l sched' else ret (Some tt)
  end.

(** [func New(ctx context.Context, cfg Config) (DirectoryWatcher, error)] *)
Definition New (parent : Context) (cfg : Config)
    : M (option directoryWatcher * option error) :=
  r <- perform fsnotify_NewWatcher ;;
  match r with
  | Err err => ret (None, Some err)
  | Ok fsWatcher =>
      err <- perform (fsnotify_Add fsWatcher (cfgPath cfg)) ;;
      match err with
      | Some err => ret (None, Some err)
      | None =>
          let watcher := mkWatcher (WithCancel parent) in
          record (CallGo (mkLoop watcher fsWatcher (cfgOnCreate cfg)
                                 (cfgOnRemove cfg) (cfgLogger cfg) false)) ;;
          ret (Some watcher, None)
      end
  end.

(** *** The watcher and its environment

    The goroutine and the holder of the handle share the
    [directoryWatcher]; [System] is the goroutine (which contains that
    shared object) and the runtime. *)
Record System : Type := mkSystem {
  loop : Loop;
  runtime : Runtime W Call
}.

Inductive Input : Type :=
| CallStop
| ScopeEnds
| Select (r : Ready).

(** [select] takes the [Done] case only once the context is cancelled;
    a goroutine that has returned takes none. *)
Definition enabled (l : Loop) (r : Ready) : bool :=
  negb (returned l) &&
  match r with
  | CtxDone => Done (ctx (self l))
  | _ => true
  end.

Definition setSelf (l : Loop) (w : directoryWatcher) : Loop :=
  mkLoop w (watcher l) (onCreate l) (onRemove l) (logger l) (returned l).

Definition setReturned (l : Loop) (b : bool) : Loop :=
  mkLoop (self l) (watcher l) (onCreate l) (onRemove l) (logger l) b.

Definition step (i : Input) (s : System) : option System :=
  match i with
  | CallStop | ScopeEnds =>
      Some (mkSystem (setSelf (loop s) (Stop (self (loop s)))) (runtime s))
  | Select r =>
      if enabled (loop s) r then
        let (again, rt') := runState (iteration (loop s) r) (runtime s) in
        Some (mkSystem (setReturned (loop s) (negb again)) rt')
      else None
  end.

Fixpoint run (ins : list Input) (s : System) : option System :=
  match ins with
  | [] => Some s
  | i :: ins' =>
      match step i s with
      | Some s' => run ins' s'
      | None => None
      end
  end.

(** The calls to the two handlers among a list of calls. *)
Definition isHandlerCall (c : Call) : bool :=
  match c with
  | CallOnCreate _ | CallOnRemove _ => true
  | _ => false
  end.

Definition handlerCalls (cs : list Call) : list Call :=
  filter isHandlerCall cs.

End Watcher.

Arguments CallOnCreate {W FsWatcher} path.
Arguments CallOnRemove {W FsWatcher} path.
Arguments CallLog {W FsWatcher} ctx msg.
Arguments CallClose {W FsWatcher} fs.

End DirectoryWatcher.

(** ** secrets/store.go and secrets/config.go *)

Module Secrets.
Import Go.

(** [type Provider int], with [VaultProvider Provider = iota]. *)
Definition Provider := Z.
Definition VaultProvider : Provider := 0%Z.
Definition VaultCsiProvider : Provider := 1%Z.

Record Config : Type := mkConfig {
  cfgPath : string;
  cfgProvider : string
}.

(** [func (c Config) getProvider() (Provider, error)] *)
Definition getProvider (c : Config) : Provider * option error :=
  if String.eqb (cfgProvider c) "vault" then (VaultProvider, None)
  else if String.eqb (cfgProvider c) "vault_csi" then (VaultCsiProvider, None)
  else (VaultProvider,
        Some ("unknown secret provider " ++ cfgProvider c
              ++ ", must be one of ['vault', 'vault_csi']")).

Section Store.

(** The world the secret handlers act on. *)
Variable W : Type.

(** [Secrets] and [NewSecrets] are declared in the package's
    secrets.go; [Reader] is what an [io.Reader] yields. *)
Variable Secrets : Type.
Variable Reader : Type.
Variable NewSecrets : Reader -> result Secrets.

(** Opening the watched file, for [filewatcher.New]. *)
Variable openFile : string -> W -> result Reader * W.

Definition SecretHandlerFunc : Type := Secrets -> W -> W.

(** A middleware builds the next handler from the current one; building
    it has no effect of its own, the effects are those of the handler it
    returns when that handler is called. *)
Definition SecretMiddleware : Type := SecretHandlerFunc -> SecretHandlerFunc.

Definition nopSecretHandlerFunc : SecretHandlerFunc := fun _ w => w.

(** Modelled from the spec: the package [filewatcher] (the spec's
    SnapshotWatcher) is not among the sources.  A [FileWatcher] holds
    the last successfully parsed value, returned by [Get], and can be
    stopped. *)
Record FileWatcher : Type := mkFileWatcher {
  data : Secrets;
  stopped : bool
}.

Definition Get (fw : FileWatcher) : Secrets := data fw.

Record store : Type := mkStore {
  watcher : option FileWatcher;
  secretHandlerFunc : SecretHandlerFunc
}.

Inductive Call : Type :=
| CallHandler (h : SecretHandlerFunc) (sec : Secrets).

Definition M : Type -> Type := state (Runtime W Call).

(** A call [h(sec)] of a handler function. *)
Definition invoke (h : SecretHandlerFunc) (sec : Secrets) : M unit :=
  record (CallHandler h sec) ;; perform (fun w => (tt, h sec w)).

(** [func (s *store) parser(r io.Reader) (interface{}, error)] *)
Definition parser (s : store) (r : Reader) : M (result Secrets) :=
  match NewSecrets r with
  | Err err => ret (Err err)
  | Ok secrets =>
      invoke (secretHandlerFunc s) secrets ;;
      ret (Ok secrets)
  end.

(** [func (s *store) secretHandler(middlewares ...SecretMiddleware)]:
    the [for _, m := range middlewares] loop, one assignment to
    [s.secretHandlerFunc] per middleware. *)
Fixpoint secretHandler (middlewares : list SecretMiddleware) (s : store)
    : store :=
  match middlewares with
  | [] => s
  | m :: rest =>
      secretHandler rest (mkStore (watcher s) (m (secretHandlerFunc s)))
  end.

(** [func (s *store) getSecrets() *Secrets]: a method call on the nil
    [watcher] of a store under construction panics. *)
Definition getSecrets (s : store) : outcome Secrets :=
  match watcher s with
  | Some fw => Returns (Get fw)
  | None => Panics "invalid memory address or nil pointer dereference"
  end.

(** [func (s *store) AddMiddlewares(middlewares ...SecretMiddleware)];
    the result is the store after the call and how the call ended. *)
Definition AddMiddlewares (middlewares : list SecretMiddleware) (s : store)
    : M (store * outcome unit) :=
  let s' := secretHandler middlewares s in
  match getSecrets s' with
  | Returns secrets =>
      invoke (secretHandlerFunc s') secrets ;;
      ret (s', Returns tt)
  | Panics msg => ret (s', Panics msg)
  end.

(** Modelled from the spec: [filewatcher.New] is not among the sources.
    It fails if the path cannot be read or the initial parse fails, and
    otherwise holds the value of the initial parse. *)
Definition filewatcher_New (path : string)
    (Parser : Reader -> M (result Secrets)) : M (result FileWatcher) :=
  f <- perform (openFile path) ;;
  match f with
  | Err err => ret (Err err)
  | Ok r =>
      d <- Parser r ;;
      match d with
      | Err err => ret (Err err)
      | Ok secrets => ret (Ok (mkFileWatcher secrets false))
      end
  end.

(** [func NewStore(ctx, path, logger, middlewares...) (Store, error)];
    [ctx] and [logger] are only handed on to [filewatcher.New]. *)
Definition NewStore (path : string) (middlewares : list SecretMiddleware)
    : M (result store) :=
  let store :=
    secretHandler middlewares (mkStore None nopSecretHandlerFunc) in
  result <- filewatcher_New path (parser store) ;;
  match result with
  | Err err => ret (Err err)
  | Ok fw => ret (Ok (mkStore (Some fw) (secretHandlerFunc store)))
  end.

(** [func InitFromConfig(ctx context.Context, cfg Config)], returning a
    store and an error; the context only bounds the time
    [filewatcher.New] may wait, and [cfg.Provider] is not read. *)
Definition InitFromConfig (cfg : Config) : M (result store) :=
  r <- NewStore (cfgPath cfg) [] ;;
  match r with
  | Err err => ret (Err err)
  | Ok store => ret (Ok store)
  end.

(** The spec's description of the handler chain,
    [chain = m_n(m_(n-1)(...m_1(noop)))] for middlewares registered in
    the order [m_1, ..., m_n]: the middleware registered last is applied
    to the chain of those registered before it. *)
Fixpoint wrapLatestFirst (latestFirst : list SecretMiddleware)
    : SecretHandlerFunc :=
  match latestFirst with
  | [] => nopSecretHandlerFunc
  | m_n :: earlier => m_n (wrapLatestFirst earlier)
  end.

Definition chainSpec (registered : list SecretMiddleware)
    : SecretHandlerFunc :=
  wrapLatestFirst (rev registered).

(** A caller of the store, not part of the package: one [AddMiddlewares]
    call per batch, in order, stopping at a call that panics. *)
Fixpoint addAll (batches : list (list SecretMiddleware)) (s : store)
    : M (store * outcome unit) :=
  match batches with
  | [] => ret (s, Returns tt)
  | ms :: batches' =>
      r <- AddMiddlewares ms s ;;
      match snd r with
      | Returns _ => addAll batches' (fst r)
      | Panics msg => ret r
      end
  end.

(** *** The CSI-backed store *)

Variables SimpleSecret VersionedSecret CredentialSecret Vault : Type.

(** [type vaultCsiStore struct]; its [watcher] is a
    [directorywatcher.DirectoryWatcher].  The body of each of its five
    operations below is [panic("implement me")]. *)
Record vaultCsiStore : Type := mkVaultCsiStore {
  csiWatcher : DirectoryWatcher.directoryWatcher;
  csiSecretHandlerFunc : SecretHandlerFunc
}.






End Store.

Arguments nopSecretHandlerFunc {W Secrets} _ _.

End Secrets.

(** ** A concrete environment

    Callbacks that leave notes in a list of strings, an fsnotify that
    refuses the empty path, and secrets that are plain strings. *)

Module Demo.
Import Go Fsnotify.

Definition World : Type := list string.

(** [NewWatcher] fails once the process has used up its inotify
    instances, noted in the world as ["EMFILE"]. *)
Definition newWatcher (w : World) : result nat * World :=
  match w with
  | "EMFILE" :: _ => (Err "too many open files", w)
  | _ => (Ok 7, w)
  end.

Definition add (fs : nat) (path : string) (w : World)
    : option error * World :=
  if String.eqb path "" then (Some "no such file or directory", w)
  else (None, w).

Definition close (fs : nat) (w : World) : World := "closed" :: w.

(** [onCreate] fails on the path ["/d/bad"]. *)
Definition onCreate (path : string) (w : World) : option error * World :=
  if String.eqb path "/d/bad" then (Some "unreadable", w)
  else (None, ("create " ++ path) :: w).

(** [onRemove] fails on the path ["/d/bad"]. *)
Definition onRemove (path : string) (w : World) : option error * World :=
  if String.eqb path "/d/bad" then (Some "busy", w)
  else (None, ("delete " ++ path) :: w).

Definition logger (c : DirectoryWatcher.Context) (msg : string) (w : World)
    : World :=
  ("log " ++ msg) :: w.

Definition cfg : DirectoryWatcher.Config World :=
  DirectoryWatcher.mkConfig "/d" onCreate onRemove logger.

Definition running (c : DirectoryWatcher.Context)
    : DirectoryWatcher.Loop World nat :=
  DirectoryWatcher.mkLoop (DirectoryWatcher.mkWatcher c) 7
    onCreate onRemove logger false.

Definition start : Runtime World (DirectoryWatcher.Call World nat) :=
  mkRuntime [] [].

(** Secrets are strings; the empty file does not parse. *)
Definition newSecrets (r : string) : result string :=
  if String.eqb r "" then Err "secrets: empty document" else Ok r.

Definition openFile (path : string) (w : World) : result string * World :=
  if String.eqb path "/secrets.json" then (Ok "{token}", w)
  else (Err "no such file or directory", w).

(** Two middlewares that note the secret they see, before and after the
    rest of the chain respectively. *)
Definition noteBefore (tag : string)
    : Secrets.SecretMiddleware World string :=
  fun next sec w => next sec ((tag ++ " " ++ sec) :: w).

Definition noteAfter (tag : string)
    : Secrets.SecretMiddleware World string :=
  fun next sec w => (tag ++ " " ++ sec) :: next sec w.

Definition idle : Runtime World (Secrets.Call World string) :=
  mkRuntime [] [].

Definition loaded (ms : list (Secrets.SecretMiddleware World string))
    : Secrets.store World string :=
  Secrets.secretHandler ms
    (Secrets.mkStore
       (Some (Secrets.mkFileWatcher "{token}" false))
       Secrets.nopSecretHandlerFunc).

Definition csi : Secrets.vaultCsiStore World string :=
  Secrets.mkVaultCsiStore
    (DirectoryWatcher.mkWatcher DirectoryWatcher.Background)
    Secrets.nopSecretHandlerFunc.

End Demo.

(** ** thriftbp: classification and wrapping of baseplate errors *)

(** [map[int32]bool] *)
Module Int32Map := FMapAVL.Make OrderedTypeEx.Z_as_OT.
Module Int32MapFacts := FMapFacts.WFacts_fun OrderedTypeEx.Z_as_OT Int32Map.

Module Thriftbp.

(** [thrift.TExceptionType], a byte enumeration whose second value is
    [TExceptionTypeCompiled]. *)
Definition TExceptionType := N.
Definition TExceptionTypeCompiled : TExceptionType := 1%N.

Section Errors.

(** [map[string]string], the type of [GetDetails()]. *)
Variable Details : Type.

(** What [fmt.Sprintf] prints for the verbs [%q] of a string, [%d] of an
    [int32], [%v] of a [bool] and [%#v] of the details. *)
Variable fmt_q : string -> string.
Variable fmt_d : Z -> string.
Variable fmt_v : bool -> string.
Variable fmt_sharp_v : Details -> string.

(** The three codes of the generated package [baseplatethrift] that
    [WithDefaultRetryableCodes] names. *)
Variable ErrorCode_TOO_EARLY : Z.
Variable ErrorCode_TOO_MANY_REQUESTS : Z.
Variable ErrorCode_SERVICE_UNAVAILABLE : Z.

(** [type baseplateError interface]: what the methods of a value that
    implements it return; [TExceptionType] is the method of the embedded
    [thrift.TException]. *)
Record baseplateError : Type := mkBaseplateError {
  bpTExceptionType : TExceptionType;
  IsSetMessage : bool;
  GetMessage : string;
  IsSetCode : bool;
  GetCode : Z;
  IsSetRetryable : bool;
  GetRetryable : bool;
  IsSetDetails : bool;
  GetDetails : Details
}.

(** Which of the two interfaces the dynamic type of an error value
    implements; [baseplateError] includes [thrift.TException]. *)
Inductive Implements : Type :=
| NoneOfThem
| ImplTException (t : TExceptionType)
| ImplBaseplateError (b : baseplateError).

(** A non-nil [error].  A value of some type other than
    [wrappedBaseplateError] has the text of its [Error()] and the
    interfaces it implements; it is a [LeafError] when its [Unwrap()]
    gives nil or it has no such method, a [WrapError] around what
    [Unwrap()] gives otherwise.  The third case is the struct
    [wrappedBaseplateError{cause, bpErr}], which only
    [WrapBaseplateError] builds.  Errors carry no [As] method of their
    own and unwrap to at most one error. *)
Inductive Err : Type :=
| LeafError (msg : string) (impl : Implements)
| WrapError (msg : string) (impl : Implements) (unwrap : Err)
| wrappedBaseplateError (cause : Err) (bpErr : baseplateError).

(** [errors.As(err, &te)] with [te] a [thrift.TException]: the first
    error of the chain that implements it. *)
Fixpoint asTException (e : Err) : option TExceptionType :=
  match e with
  | LeafError _ (ImplTException t) | WrapError _ (ImplTException t) _ =>
      Some t
  | LeafError _ (ImplBaseplateError b)
  | WrapError _ (ImplBaseplateError b) _ => Some (bpTExceptionType b)
  | LeafError _ NoneOfThem => None
  | WrapError _ NoneOfThem e' => asTException e'
  | wrappedBaseplateError cause _ => asTException cause
  end.

(** [errors.As(err, &bpErr)] with [bpErr] a [baseplateError]. *)
Fixpoint asBaseplateError (e : Err) : option baseplateError :=
  match e with
  | LeafError _ (ImplBaseplateError b)
  | WrapError _ (ImplBaseplateError b) _ => Some b
  | LeafError _ _ => None
  | WrapError _ _ e' => asBaseplateError e'
  | wrappedBaseplateError cause _ => asBaseplateError cause
  end.

(** [errors.As(e, new(wrappedBaseplateError))]. *)
Fixpoint asWrapped (e : Err) : bool :=
  match e with
  | LeafError _ _ => false
  | WrapError _ _ e' => asWrapped e'
  | wrappedBaseplateError _ _ => true
  end.

(** [func WithDefaultRetryableCodes(codes ...int32) []int32] *)
Definition WithDefaultRetryableCodes (codes : list Z) : list Z :=
  [ErrorCode_TOO_EARLY; ErrorCode_TOO_MANY_REQUESTS;
   ErrorCode_SERVICE_UNAVAILABLE] ++ codes.

(** The loop [for _, code := range codes { codeMap[code] = true }]. *)
Definition makeCodeMap (codes : list Z) : Int32Map.t bool :=
  fold_left (fun codeMap code => Int32Map.add code true codeMap) codes
            (Int32Map.empty bool).

(** The index expression [codeMap[code]]: [false] for a missing key. *)
Definition index (codeMap : Int32Map.t bool) (code : Z) : bool :=
  match Int32Map.find code codeMap with
  | Some b => b
  | None => false
  end.

(** [retry.RetryIfFunc] and [retrybp.Filter]; the error may be nil. *)
Definition RetryIfFunc : Type := option Err -> bool.
Definition Filter : Type := option Err -> RetryIfFunc -> bool.

(** [func BaseplateErrorFilter(codes ...int32) retrybp.Filter] *)
Definition BaseplateErrorFilter (codes : list Z) : Filter :=
  let codeMap := makeCodeMap codes in
  fun err next =>
    match err with
    | Some e =>
        match asBaseplateError e with
        | Some bpErr => index codeMap (GetCode bpErr)
        | None => next err
        end
    | None => next err
    end.

(** [func IDLExceptionSuppressor(err error) bool] *)
Definition IDLExceptionSuppressor (err : option Err) : bool :=
  match err with
  | None => false
  | Some e =>
      match asTException e with
      | None => false
      | Some te =>
          match asBaseplateError e with
          | Some bpErr =>
              let code := GetCode bpErr in
              (code <? 500)%Z || (code >=? 600)%Z
          | None => (te =? TExceptionTypeCompiled)%N
          end
      end
  end.

(** The closure [writeSeparator] on the builder and the flag [first]. *)
Definition writeSeparator (st : string * bool) : string * bool :=
  let (sb, first) := st in
  if first then (sb ++ " (", false) else (sb ++ ", ", first).

Definition writeString (s : string) (st : string * bool) : string * bool :=
  (fst st ++ s, snd st).

(** [func (e wrappedBaseplateError) Error() string] *)
Definition wrappedError (bpErr : baseplateError) : string :=
  let st := ("baseplate.Error: " ++ fmt_q (GetMessage bpErr), true) in
  let st := if IsSetCode bpErr
            then writeString ("code=" ++ fmt_d (GetCode bpErr))
                   (writeSeparator st)
            else st in
  let st := if IsSetRetryable bpErr
            then writeString ("retryable=" ++ fmt_v (GetRetryable bpErr))
                   (writeSeparator st)
            else st in
  let st := if IsSetDetails bpErr
            then writeString ("details=" ++ fmt_sharp_v (GetDetails bpErr))
                   (writeSeparator st)
            else st in
  if negb (snd st) then fst st ++ ")" else fst st.

(** The method [Error()] of an error value. *)
Definition Error (e : Err) : string :=
  match e with
  | LeafError msg _ | WrapError msg _ _ => msg
  | wrappedBaseplateError _ bpErr => wrappedError bpErr
  end.

(** [errors.Unwrap]: [func (e wrappedBaseplateError) Unwrap() error] for
    a wrapped error. *)
Definition Unwrap (e : Err) : option Err :=
  match e with
  | LeafError _ _ => None
  | WrapError _ _ unwrap => Some unwrap
  | wrappedBaseplateError cause _ => Some cause
  end.

(** [func WrapBaseplateError(e error) error] *)
Definition WrapBaseplateError (e : option Err) : option Err :=
  match e with
  | None => e
  | Some e' =>
      if asWrapped e' then e
      else match asBaseplateError e' with
           | Some bpErr => Some (wrappedBaseplateError e' bpErr)
           | None => e
           end
  end.

(** The parts [Error()] puts between the parentheses, in order. *)
Definition setFields (bpErr : baseplateError) : list string :=
  (if IsSetCode bpErr then ["code=" ++ fmt_d (GetCode bpErr)] else []) ++
  (if IsSetRetryable bpErr
   then ["retryable=" ++ fmt_v (GetRetryable bpErr)] else []) ++
  (if IsSetDetails bpErr
   then ["details=" ++ fmt_sharp_v (GetDetails bpErr)] else []).

End Errors.

Arguments NoneOfThem {Details}.
Arguments ImplTException {Details} t.

End Thriftbp.

(** ** Schedules of the watcher loop *)

Module WatcherTraces.
Import Go Fsnotify DirectoryWatcher.

Section Traces.

Variable W : Type.
Variable FsWatcher : Type.

(** The handler call the [switch] of the loop makes for an event. *)
Definition handlerFor (ev : Event) : list (Call W FsWatcher) :=
  if (ev_Op ev =? Create)%N || (ev_Op ev =? Write)%N
  then [CallOnCreate (ev_Name ev)]
  else if (ev_Op ev =? Remove)%N || (ev_Op ev =? Rename)%N
  then [CallOnRemove (ev_Name ev)]
  else [].

Definition handlersFor (r : Ready) : list (Call W FsWatcher) :=
  match r with
  | RecvEvent ev => handlerFor ev
  | _ => []
  end.

(** The [select] outcomes before the first [Done] case. *)
Fixpoint beforeDone (sched : list Ready) : list Ready :=
  match sched with
  | [] => []
  | CtxDone :: _ => []
  | r :: sched' => r :: beforeDone sched'
  end.

Definition isClose (c : Call W FsWatcher) : bool :=
  match c with
  | CallClose _ => true
  | _ => false
  end.

(** The two inputs that cancel the watcher's context. *)
Definition isCancel (i : Input) : bool :=
  match i with
  | CallStop | ScopeEnds => true
  | Select _ => false
  end.

End Traces.

End WatcherTraces.

(** ** secrets/store.go: the middleware loop of the CSI-backed store *)

Module CsiStore.
Import Go Secrets.

Section Csi.

Variable W : Type.
Variable Secrets : Type.

(** [func (s *vaultCsiStore) secretHandler(middlewares ...SecretMiddleware)] *)
Fixpoint secretHandler (middlewares : list (SecretMiddleware W Secrets))
    (s : vaultCsiStore W Secrets) : vaultCsiStore W Secrets :=
  match middlewares with
  | [] => s
  | m :: rest =>
      secretHandler rest
        (mkVaultCsiStore (csiWatcher s) (m (csiSecretHandlerFunc s)))
  end.

End Csi.

End CsiStore.

(** ** Concrete errors

    A baseplate error with code 503, the same error inside an error that
    wraps it, a transport exception and a plain error; details are a list
    of pairs and the verbs print with apostrophes. *)

Module ThriftDemo.
Import Thriftbp.

Definition Details : Type := list (string * string).

Definition fmt_q (s : string) : string := "'" ++ s ++ "'".

Definition fmt_d (z : Z) : string :=
  DecimalString.NilZero.string_of_int (Z.to_int z).

Definition fmt_v (b : bool) : string := if b then "true" else "false".

Definition fmt_sharp_v (d : Details) : string :=
  "{" ++ String.concat ", " (map (fun kv => fst kv ++ ":" ++ snd kv) d) ++ "}".

Definition unavailable : baseplateError Details :=
  mkBaseplateError 1%N true "upstream down" true 503%Z false false false [].

Definition notFound : baseplateError Details :=
  mkBaseplateError 1%N true "no user" true 404%Z true false true
    [("id", "42")].

Definition idlError : Err Details :=
  LeafError "Error({Code:503})" (ImplBaseplateError unavailable).

Definition callFailed : Err Details :=
  WrapError "call failed: Error({Code:503})" NoneOfThem idlError.

Definition transportError : Err Details :=
  LeafError "EOF" (ImplTException 4%N).

Definition plainError : Err Details := LeafError "boom" NoneOfThem.

Definition never : RetryIfFunc Details := fun _ => false.

End ThriftDemo.

(** ** thriftbp/server.go *)

Module ThriftServer.
Import Go.

Section Server.

(** The world [thrift.NewTServerSocket] acts on. *)
Variable W : Type.

(** Types of thrift, of [baseplate] and of other packages of the
    repository that the file only hands on. *)
Variable TProcessor : Type.
Variable ProcessorMiddleware : Type.
Variable Logger : Type.
Variable Suppressor : Type.
Variable SampleRate : Type.
Variable Duration : Type.
Variable TServerSocket : Type.
Variable EdgeContextImpl : Type.
Variable Level : Type.
Variable Baseplate : Type.

Variable NewTServerSocket : string -> W -> result TServerSocket * W.
Variable WrapProcessor : TProcessor -> list ProcessorMiddleware -> TProcessor.

(** [HeadersToForward], declared in another file of the package. *)
Variable HeadersToForward : list string.

(** [bp.EdgeContextImpl()], [bp.GetConfig().Addr] and
    [bp.GetConfig().Log.Level]. *)
Variable bpEdgeContextImpl : Baseplate -> EdgeContextImpl.
Variable bpAddr : Baseplate -> string.
Variable bpLogLevel : Baseplate -> Level.

(** [log.ZapWrapper(log.ZapWrapperArgs{Level: level, KVPairs: ...})
    .ToThriftLogger()]. *)
Variable zapThriftLogger : Level -> Logger.

Record DefaultProcessorMiddlewaresArgs : Type :=
  mkDefaultProcessorMiddlewaresArgs {
    argEdgeContextImpl : EdgeContextImpl;
    argErrorSpanSuppressor : Suppressor;
    argReportPayloadSizeMetricsSampleRate : SampleRate
  }.

Variable BaseplateDefaultProcessorMiddlewares :
  DefaultProcessorMiddlewaresArgs -> list ProcessorMiddleware.

(** [type ServerConfig struct]; [Logger] and [Socket] may be nil. *)
Record ServerConfig : Type := mkServerConfig {
  Processor : TProcessor;
  Middlewares : list ProcessorMiddleware;
  cfgLogger : option Logger;
  ErrorSpanSuppressor : Suppressor;
  ReportPayloadSizeMetricsSampleRate : SampleRate;
  Addr : string;
  Timeout : Duration;
  Socket : option TServerSocket
}.

(** What a [thrift.TSimpleServer] was built and configured with; the
    transport and protocol factories are the same for every server. *)
Record TSimpleServer : Type := mkTSimpleServer {
  srvProcessor : TProcessor;
  srvTransport : TServerSocket;
  srvForwardHeaders : list string;
  srvLogger : option Logger
}.

(** [func NewServer(cfg ServerConfig)], returning a pointer to a
    [thrift.TSimpleServer] and an error. *)
Definition NewServer (cfg : ServerConfig) (w : W)
    : result TSimpleServer * W :=
  let (transport, w') :=
    match Socket cfg with
    | None => NewTServerSocket (Addr cfg) w
    | Some socket => (Ok socket, w)
    end in
  match transport with
  | Err err => (Err err, w')
  | Ok transport =>
      (Ok (mkTSimpleServer
             (WrapProcessor (Processor cfg) (Middlewares cfg))
             transport HeadersToForward (cfgLogger cfg)),
       w')
  end.

(** [type impl struct { bp; srv }] *)
Record impl : Type := mkImpl {
  bp : Baseplate;
  srv : TSimpleServer
}.

(** [func ApplyBaseplate(bp, server) baseplate.Server] *)
Definition ApplyBaseplate (b : Baseplate) (server : TSimpleServer) : impl :=
  mkImpl b server.

(** [func (s impl) Baseplate() baseplate.Baseplate] *)
Definition implBaseplate (s : impl) : Baseplate := bp s.

(** [func NewBaseplateServer(bp, cfg) (baseplate.Server, error)] *)
Definition NewBaseplateServer (b : Baseplate) (cfg : ServerConfig) (w : W)
    : result impl * W :=
  let middlewares :=
    BaseplateDefaultProcessorMiddlewares
      (mkDefaultProcessorMiddlewaresArgs
         (bpEdgeContextImpl b)
         (ErrorSpanSuppressor cfg)
         (ReportPayloadSizeMetricsSampleRate cfg)) in
  let middlewares := (middlewares ++ Middlewares cfg)%list in
  let cfg :=
    mkServerConfig (Processor cfg) middlewares
      (Some (zapThriftLogger (bpLogLevel b)))
      (ErrorSpanSuppressor cfg) (ReportPayloadSizeMetricsSampleRate cfg)
      (bpAddr b) (Timeout cfg) None in
  match NewServer cfg w with
  | (Err err, w') => (Err err, w')
  | (Ok srv, w') => (Ok (ApplyBaseplate b srv), w')
  end.

End Server.

End ThriftServer.

(** ** A concrete thrift environment

    Processors, middlewares, loggers and sockets are named by strings; a
    baseplate is its address and its log level; the empty address cannot
    be opened. *)

Module ServerDemo.
Import Go.

Definition World : Type := list string.

Definition newSocket (addr : string) (w : World) : result string * World :=
  if String.eqb addr "" then (Err "missing port in address", w)
  else (Ok addr, ("socket " ++ addr) :: w).

Definition wrap (p : string) (ms : list string) : string :=
  fold_right (fun m p => m ++ "(" ++ p ++ ")") p ms.

Definition headers : list string := ["Edge-Request"].

Definition defaults
    (args : ThriftServer.DefaultProcessorMiddlewaresArgs unit unit unit)
    : list string :=
  ["edge-context"; "tracing"].

Definition zap (level : string) : string := "zap " ++ level.

Definition config : ThriftServer.ServerConfig string string string unit unit
                      nat string :=
  ThriftServer.mkServerConfig "service" ["auth"] (Some "stdout") tt tt
    "localhost:9090" 0 (Some "unix:/run/s.sock").

Definition baseplate : string * string := (":8080", "info").

Definition noAddress : string * string := ("", "info").

End ServerDemo.

(** * Properties *)

Module GoFacts.
Import Go.

Lemma skipn_length_app {A : Type} (l cs : list A) :
  skipn (length l) (l ++ cs)%list = cs.
Proof. induction l as [|a l IH]; simpl; auto. Qed.

(** A computation that extends the journal by [cs] emits [cs]. *)
Lemma emitted_of_journal {W C A : Type} (m : state (Runtime W C) A)
    (rt : Runtime W C) (cs : list C) :
  journal (snd (runState m rt)) = (journal rt ++ cs)%list ->
  emitted m rt = cs.
Proof. unfold emitted. intros ->. apply skipn_length_app. Qed.

Lemma emitted_nothing {W C A : Type} (m : state (Runtime W C) A)
    (rt : Runtime W C) :
  journal (snd (runState m rt)) = journal rt -> emitted m rt = [].
Proof.
  intros H. apply emitted_of_journal. now rewrite app_nil_r.
Qed.

End GoFacts.

Module DirectoryWatcherFacts.
Import Go Fsnotify DirectoryWatcher GoFacts.

Section Watcher.

Variable W : Type.
Variable FsWatcher : Type.
Variable fsnotify_NewWatcher : W -> result FsWatcher * W.
Variable fsnotify_Add : FsWatcher -> string -> W -> option error * W.
Variable fsnotify_Close : FsWatcher -> W -> W.

Local Abbreviation Loop := (Loop W FsWatcher).
Local Abbreviation Call := (Call W FsWatcher).
Local Abbreviation Runtime := (Runtime W Call).
Local Abbreviation System := (System W FsWatcher).
Local Abbreviation iteration := (iteration fsnotify_Close).
Local Abbreviation watcherLoop := (watcherLoop fsnotify_Close).
Local Abbreviation step := (step fsnotify_Close).
Local Abbreviation run := (run fsnotify_Close).
Local Abbreviation New := (New fsnotify_NewWatcher fsnotify_Add).

Lemma op_create_or_write (op : Op) :
  op = Create \/ op = Write ->
  ((op =? Create)%N || (op =? Write)%N) = true.
Proof. intros [-> | ->]; reflexivity. Qed.

Lemma op_remove_or_rename (op : Op) :
  op = Remove \/ op = Rename ->
  ((op =? Create)%N || (op =? Write)%N) = false /\
  ((op =? Remove)%N || (op =? Rename)%N) = true.
Proof. intros [-> | ->]; split; reflexivity. Qed.

Lemma dispatch_create_ok (l : Loop) (ev : Event) (rt : Runtime) (w1 : W) :
  ev_Op ev = Create \/ ev_Op ev = Write ->
  onCreate l (ev_Name ev) (world rt) = (None, w1) ->
  runState (dispatch l ev) rt =
  (tt, mkRuntime w1 (journal rt ++ [CallOnCreate (ev_Name ev)])).
Proof.
  intros H Hh. unfold dispatch. rewrite (op_create_or_write H).
  cbn. rewrite Hh. reflexivity.
Qed.

Lemma dispatch_create_err (l : Loop) (ev : Event) (rt : Runtime)
    (e : error) (w1 : W) :
  ev_Op ev = Create \/ ev_Op ev = Write ->
  onCreate l (ev_Name ev) (world rt) = (Some e, w1) ->
  runState (dispatch l ev) rt =
  (tt, mkRuntime
         (logger l (ctx (self l))
            ("directorywatcher: create handler error: " ++ e) w1)
         (journal rt ++
          [CallOnCreate (ev_Name ev);
           CallLog (ctx (self l))
             ("directorywatcher: create handler error: " ++ e)])).
Proof.
  intros H Hh. unfold dispatch. rewrite (op_create_or_write H).
  cbn. rewrite Hh. cbn. rewrite <- app_assoc. reflexivity.
Qed.

Lemma dispatch_remove_ok (l : Loop) (ev : Event) (rt : Runtime) (w1 : W) :
  ev_Op ev = Remove \/ ev_Op ev = Rename ->
  onRemove l (ev_Name ev) (world rt) = (None, w1) ->
  runState (dispatch l ev) rt =
  (tt, mkRuntime w1 (journal rt ++ [CallOnRemove (ev_Name ev)])).
Proof.
  intros H Hh. unfold dispatch.
  destruct (op_remove_or_rename H) as [-> ->].
  cbn. rewrite Hh. reflexivity.
Qed.

Lemma dispatch_remove_err (l : Loop) (ev : Event) (rt : Runtime)
    (e : error) (w1 : W) :
  ev_Op ev = Remove \/ ev_Op ev = Rename ->
  onRemove l (ev_Name ev) (world rt) = (Some e, w1) ->
  runState (dispatch l ev) rt =
  (tt, mkRuntime
         (logger l (ctx (self l))
            ("directorywatcher: remove handler error: " ++ e) w1)
         (journal rt ++
          [CallOnRemove (ev_Name ev);
           CallLog (ctx (self l))
             ("directorywatcher: remove handler error: " ++ e)])).
Proof.
  intros H Hh. unfold dispatch.
  destruct (op_remove_or_rename H) as [-> ->].
  cbn. rewrite Hh. cbn. rewrite <- app_assoc. reflexivity.
Qed.

Lemma dispatch_other (l : Loop) (ev : Event) (rt : Runtime) :
  ev_Op ev <> Create -> ev_Op ev <> Write ->
  ev_Op ev <> Remove -> ev_Op ev <> Rename ->
  runState (dispatch l ev) rt = (tt, rt).
Proof.
  intros Hc Hw Hr Hn. unfold dispatch.
  apply N.eqb_neq in Hc, Hw, Hr, Hn. rewrite Hc, Hw, Hr, Hn.
  reflexivity.
Qed.

Lemma iteration_event (l : Loop) (ev : Event) (rt : Runtime) :
  runState (iteration l (RecvEvent ev)) rt =
  (true, snd (runState (dispatch l ev) rt)).
Proof.
  cbn. destruct (runState (dispatch l ev) rt) as [[] rt']. reflexivity.
Qed.

Lemma iteration_emitted (l : Loop) (ev : Event) (rt : Runtime)
    (w : W) (cs : list Call) :
  runState (dispatch l ev) rt = (tt, mkRuntime w (journal rt ++ cs)) ->
  emitted (iteration l (RecvEvent ev)) rt = cs /\
  runState (iteration l (RecvEvent ev)) rt =
    (true, mkRuntime w (journal rt ++ cs)).
Proof.
  intros D. split.
  - apply emitted_of_journal. rewrite iteration_event, D. reflexivity.
  - rewrite iteration_event, D. reflexivity.
Qed.

(** C1: an event whose operation is Create or Write makes the loop call
    [onCreate] with the event's path, one whose operation is Remove or
    Rename makes it call [onRemove] with the event's path, and these
    are the only handler calls of the pass; any other operation calls
    nothing at all and leaves the runtime as it was. *)
Theorem dispatch_by_operation (l : Loop) (ev : Event) (rt : Runtime) :
  let pass := iteration l (RecvEvent ev) in
  (ev_Op ev = Create \/ ev_Op ev = Write ->
     handlerCalls (emitted pass rt) = [CallOnCreate (ev_Name ev)] /\
     exists rest,
       emitted pass rt = CallOnCreate (ev_Name ev) :: rest /\
       world (snd (runState pass rt)) =
         fold_left (fun w c => match c with
                               | CallLog c msg => logger l c msg w
                               | _ => w
                               end) rest
                   (snd (onCreate l (ev_Name ev) (world rt)))) /\
  (ev_Op ev = Remove \/ ev_Op ev = Rename ->
     handlerCalls (emitted pass rt) = [CallOnRemove (ev_Name ev)] /\
     exists rest,
       emitted pass rt = CallOnRemove (ev_Name ev) :: rest /\
       world (snd (runState pass rt)) =
         fold_left (fun w c => match c with
                               | CallLog c msg => logger l c msg w
                               | _ => w
                               end) rest
                   (snd (onRemove l (ev_Name ev) (world rt)))) /\
  (ev_Op ev <> Create -> ev_Op ev <> Write ->
   ev_Op ev <> Remove -> ev_Op ev <> Rename ->
     emitted pass rt = [] /\ runState pass rt = (true, rt)).
Proof.
  cbv zeta. split; [| split].
  - intros H.
    destruct (onCreate l (ev_Name ev) (world rt)) as [[e|] w1] eqn:Hh.
    + destruct (@iteration_emitted l ev rt _ _
                  (@dispatch_create_err l ev rt e w1 H Hh)) as [-> ->].
      split; [| eexists; split]; reflexivity.
    + destruct (@iteration_emitted l ev rt _ _
                  (@dispatch_create_ok l ev rt w1 H Hh)) as [-> ->].
      split; [| eexists; split]; reflexivity.
  - intros H.
    destruct (onRemove l (ev_Name ev) (world rt)) as [[e|] w1] eqn:Hh.
    + destruct (@iteration_emitted l ev rt _ _
                  (@dispatch_remove_err l ev rt e w1 H Hh)) as [-> ->].
      split; [| eexists; split]; reflexivity.
    + destruct (@iteration_emitted l ev rt _ _
                  (@dispatch_remove_ok l ev rt w1 H Hh)) as [-> ->].
      split; [| eexists; split]; reflexivity.
  - intros Hc Hw Hr Hn.
    pose proof (@dispatch_other l ev rt Hc Hw Hr Hn) as D.
    split; [apply emitted_nothing |]; rewrite iteration_event, D;
      reflexivity.
Qed.

Lemma watcherLoop_cons (l : Loop) (r : Ready) (sched : list Ready)
    (rt : Runtime) :
  runState (watcherLoop l (r :: sched)) rt =
  (let (again, rt') := runState (iteration l r) rt in
   if again : bool then runState (watcherLoop l sched) rt'
   else (Some tt, rt')).
Proof.
  cbn [DirectoryWatcher.watcherLoop]. cbn [bind Monad_state runState].
  destruct (runState (iteration l r) rt) as [[|] rt']; reflexivity.
Qed.

Lemma setReturned_same (l : Loop) :
  returned l = false -> setReturned l false = l.
Proof. destruct l; cbn; intros ->; reflexivity. Qed.

Lemma step_pass (l : Loop) (r : Ready) (rt rt' : Runtime) :
  returned l = false ->
  r <> CtxDone ->
  runState (iteration l r) rt = (true, rt') ->
  step (Select r) (mkSystem l rt) = Some (mkSystem l rt').
Proof.
  intros Hr Hd Hp. unfold DirectoryWatcher.step, enabled; cbn [loop runtime].
  rewrite Hr. destruct r; [congruence | |]; cbn [negb andb];
    rewrite Hp; cbn [negb]; rewrite (setReturned_same _ Hr); reflexivity.
Qed.

(** C6: when the handler called for an event returns an error, the pass
    calls the handler once and the logger once with the error's text,
    and ends by going round the loop again: the rest of the schedule
    is processed from the runtime so reached, the goroutine has not
    returned, and the watcher handle is as it was. *)
Theorem handler_error_is_logged_and_loop_goes_on
    (l : Loop) (ev : Event) (rt : Runtime) (sched : list Ready)
    (e : error) (w1 : W) :
  (ev_Op ev = Create \/ ev_Op ev = Write ->
   onCreate l (ev_Name ev) (world rt) = (Some e, w1) ->
   let msg := "directorywatcher: create handler error: " ++ e in
   let rt' := mkRuntime
                (logger l (ctx (self l)) msg w1)
                (journal rt ++ [CallOnCreate (ev_Name ev);
                                CallLog (ctx (self l)) msg]) in
   runState (iteration l (RecvEvent ev)) rt = (true, rt') /\
   runState (watcherLoop l (RecvEvent ev :: sched)) rt =
     runState (watcherLoop l sched) rt' /\
   (returned l = false ->
    step (Select (RecvEvent ev)) (mkSystem l rt) = Some (mkSystem l rt')))
  /\
  (ev_Op ev = Remove \/ ev_Op ev = Rename ->
   onRemove l (ev_Name ev) (world rt) = (Some e, w1) ->
   let msg := "directorywatcher: remove handler error: " ++ e in
   let rt' := mkRuntime
                (logger l (ctx (self l)) msg w1)
                (journal rt ++ [CallOnRemove (ev_Name ev);
                                CallLog (ctx (self l)) msg]) in
   runState (iteration l (RecvEvent ev)) rt = (true, rt') /\
   runState (watcherLoop l (RecvEvent ev :: sched)) rt =
     runState (watcherLoop l sched) rt' /\
   (returned l = false ->
    step (Select (RecvEvent ev)) (mkSystem l rt) = Some (mkSystem l rt'))).
Proof.
  split; intros H Hh msg rt'.
  - destruct (@iteration_emitted l ev rt _ _
                (@dispatch_create_err l ev rt e w1 H Hh)) as [_ P].
    fold msg in P. fold rt' in P. repeat split.
    + exact P.
    + rewrite watcherLoop_cons, P. reflexivity.
    + intros Hr. apply step_pass; [assumption | discriminate | exact P].
  - destruct (@iteration_emitted l ev rt _ _
                (@dispatch_remove_err l ev rt e w1 H Hh)) as [_ P].
    fold msg in P. fold rt' in P. repeat split.
    + exact P.
    + rewrite watcherLoop_cons, P. reflexivity.
    + intros Hr. apply step_pass; [assumption | discriminate | exact P].
Qed.

Lemma New_run (parent : Context) (cfg : Config W) (rt : Runtime) :
  runState (New parent cfg) rt =
  match fsnotify_NewWatcher (world rt) with
  | (Err e, w1) => ((None, Some e), mkRuntime w1 (journal rt))
  | (Ok fs, w1) =>
      match fsnotify_Add fs (cfgPath cfg) w1 with
      | (Some e, w2) => ((None, Some e), mkRuntime w2 (journal rt))
      | (None, w2) =>
          ((Some (mkWatcher (WithCancel parent)), None),
           mkRuntime w2
             (journal rt ++
              [CallGo (mkLoop (mkWatcher (WithCancel parent)) fs
                         (cfgOnCreate cfg) (cfgOnRemove cfg) (cfgLogger cfg)
                         false)]))
      end
  end.
Proof.
  unfold DirectoryWatcher.New. cbn [bind ret Monad_state runState perform].
  destruct (fsnotify_NewWatcher (world rt)) as [[fs|e] w1];
    cbn [world journal runState]; [| reflexivity].
  destruct (fsnotify_Add fs (cfgPath cfg) w1) as [[e|] w2]; reflexivity.
Qed.

(** C7: [New] returns the error of [fsnotify.NewWatcher] or of
    [Add(cfg.Path)] when one of them fails, with no watcher and without
    executing the [go] statement; when both succeed it returns the watcher
    and a nil error after executing [go watcher.watcherLoop(...)] once.
    So the [go] statement is executed exactly when the error returned is
    nil. *)
Theorem New_starts_loop_iff_no_error
    (parent : Context) (cfg : Config W) (rt : Runtime) :
  let res := fst (runState (New parent cfg) rt) in
  let calls := emitted (New parent cfg) rt in
  (forall e w1,
     fsnotify_NewWatcher (world rt) = (Err e, w1) ->
     res = (None, Some e) /\ calls = []) /\
  (forall fs w1 e w2,
     fsnotify_NewWatcher (world rt) = (Ok fs, w1) ->
     fsnotify_Add fs (cfgPath cfg) w1 = (Some e, w2) ->
     res = (None, Some e) /\ calls = []) /\
  (forall fs w1 w2,
     fsnotify_NewWatcher (world rt) = (Ok fs, w1) ->
     fsnotify_Add fs (cfgPath cfg) w1 = (None, w2) ->
     res = (Some (mkWatcher (WithCancel parent)), None) /\
     calls = [CallGo (mkLoop (mkWatcher (WithCancel parent)) fs
                        (cfgOnCreate cfg) (cfgOnRemove cfg) (cfgLogger cfg)
                        false)]) /\
  (snd res = None <-> exists l, calls = [CallGo l]) /\
  (snd res <> None <-> calls = []).
Proof.
  cbv zeta. unfold emitted. rewrite New_run.
  destruct (fsnotify_NewWatcher (world rt)) as [[fs|e0] w1].
  - destruct (fsnotify_Add fs (cfgPath cfg) w1) as [[e1|] w2] eqn:Ha;
      cbn [fst snd journal]; rewrite ?skipn_length_app, ?skipn_all.
    + split; [intros e w1' [=] |].
      split; [intros fs' w1' e w2' [= <- <-] H; rewrite Ha in H;
              injection H as <- _; auto |].
      split; [intros fs' w1' w2' [= <- <-] H; rewrite Ha in H;
              discriminate H |].
      split; split; try discriminate; try reflexivity.
      intros [l' [=]].
    + split; [intros e w1' [=] |].
      split; [intros fs' w1' e w2' [= <- <-] H; rewrite Ha in H;
              discriminate H |].
      split; [intros fs' w1' w2' [= <- <-] _; auto |].
      split; split; try congruence; try discriminate.
      intros _. eexists. reflexivity.
  - cbn [fst snd journal]. rewrite skipn_all.
    split; [intros e w1' [= <- <-]; auto |].
    split; [intros fs' w1' e w2' [=] |].
    split; [intros fs' w1' w2' [=] |].
    split; split; try discriminate; try reflexivity.
    intros [l' [=]].
Qed.

Lemma run_returned (ins : list Input) (s s' : System) :
  returned (loop s) = true ->
  run ins s = Some s' ->
  runtime s' = runtime s /\ returned (loop s') = true.
Proof.
  revert s. induction ins as [|i ins IH]; intros s Hr; cbn.
  - intros [= <-]. auto.
  - destruct i as [| |r]; cbn.
    + intros H. apply IH in H; [exact H | exact Hr].
    + intros H. apply IH in H; [exact H | exact Hr].
    + unfold enabled. rewrite Hr. discriminate.
Qed.

(** The handler calls of a pass for an event depend on the event only. *)
Lemma handlerCalls_pass (l : Loop) (ev : Event) (rt : Runtime) :
  handlerCalls (emitted (iteration l (RecvEvent ev)) rt) =
  if (ev_Op ev =? Create)%N || (ev_Op ev =? Write)%N
  then [CallOnCreate (ev_Name ev)]
  else if (ev_Op ev =? Remove)%N || (ev_Op ev =? Rename)%N
  then [CallOnRemove (ev_Name ev)]
  else [].
Proof.
  destruct ((ev_Op ev =? Create)%N || (ev_Op ev =? Write)%N) eqn:Hc.
  - assert (H : ev_Op ev = Create \/ ev_Op ev = Write).
    { apply orb_true_iff in Hc. destruct Hc as [Hc|Hc];
        apply N.eqb_eq in Hc; auto. }
    destruct (onCreate l (ev_Name ev) (world rt)) as [[e|] w1] eqn:Hh.
    + destruct (@iteration_emitted l ev rt _ _
                  (@dispatch_create_err l ev rt e w1 H Hh)) as [-> _].
      reflexivity.
    + destruct (@iteration_emitted l ev rt _ _
                  (@dispatch_create_ok l ev rt w1 H Hh)) as [-> _].
      reflexivity.
  - destruct ((ev_Op ev =? Remove)%N || (ev_Op ev =? Rename)%N) eqn:Hr.
    + assert (H : ev_Op ev = Remove \/ ev_Op ev = Rename).
      { apply orb_true_iff in Hr. destruct Hr as [Hr|Hr];
          apply N.eqb_eq in Hr; auto. }
      destruct (onRemove l (ev_Name ev) (world rt)) as [[e|] w1] eqn:Hh.
      * destruct (@iteration_emitted l ev rt _ _
                    (@dispatch_remove_err l ev rt e w1 H Hh)) as [-> _].
        reflexivity.
      * destruct (@iteration_emitted l ev rt _ _
                    (@dispatch_remove_ok l ev rt w1 H Hh)) as [-> _].
        reflexivity.
    + apply orb_false_iff in Hc, Hr. destruct Hc as [Hc Hw], Hr as [Hr Hn].
      apply N.eqb_neq in Hc, Hw, Hr, Hn.
      rewrite (emitted_nothing (iteration l (RecvEvent ev)) rt); trivial.
      rewrite iteration_event, dispatch_other by assumption. reflexivity.
Qed.

(** C8: once [select] takes the [Done] case, which it can only after
    the context was cancelled, the loop calls [Close] on the fsnotify
    watcher and returns: that call is the only one, no [select] case
    is taken afterwards and the runtime never changes again.  [Stop]
    and the end of the enclosing scope only cancel the context: they
    call nothing and do not end the loop, and a pass for an event taken
    after them calls the handlers as it would have without them and
    goes round the loop again, where [select] can take the [Done] case
    and end the loop. *)
Theorem cancellation_is_observed_by_select (s : System) :
  (returned (loop s) = false ->
   Done (ctx (self (loop s))) = true ->
   exists s',
     step (Select CtxDone) s = Some s' /\
     returned (loop s') = true /\
     runtime s' =
       mkRuntime (fsnotify_Close (watcher (loop s)) (world (runtime s)))
                 (journal (runtime s) ++ [CallClose (watcher (loop s))]) /\
     (forall r, step (Select r) s' = None) /\
     (forall ins s'', run ins s' = Some s'' -> runtime s'' = runtime s'))
  /\
  (Done (ctx (self (loop s))) = false -> step (Select CtxDone) s = None)
  /\
  (forall i, i = CallStop \/ i = ScopeEnds ->
   exists s1,
     step i s = Some s1 /\
     runtime s1 = runtime s /\
     returned (loop s1) = returned (loop s) /\
     Done (ctx (self (loop s1))) = true /\
     forall ev,
       handlerCalls
         (emitted (iteration (loop s1) (RecvEvent ev)) (runtime s1)) =
       handlerCalls
         (emitted (iteration (loop s) (RecvEvent ev)) (runtime s)) /\
       (returned (loop s) = false ->
        exists s2 s3,
          step (Select (RecvEvent ev)) s1 = Some s2 /\
          returned (loop s2) = false /\
          step (Select CtxDone) s2 = Some s3 /\
          returned (loop s3) = true)).
Proof.
  split; [| split].
  - intros Hr Hd. unfold DirectoryWatcher.step at 1, enabled.
    rewrite Hr, Hd. cbn.
    eexists. split; [reflexivity |]. cbn.
    split; [reflexivity |]. split.
    { reflexivity. }
    split.
    + intros r. unfold DirectoryWatcher.step, enabled. reflexivity.
    + intros ins s'' H. apply run_returned in H; [apply H | reflexivity].
  - intros Hd. unfold DirectoryWatcher.step, enabled. rewrite Hd.
    rewrite andb_false_r. reflexivity.
  - intros i Hi.
    exists (mkSystem (setSelf (loop s) (Stop (self (loop s)))) (runtime s)).
    split; [destruct Hi as [-> | ->]; reflexivity |].
    cbn [loop runtime].
    split; [reflexivity |]. split; [reflexivity |].
    split; [reflexivity |]. intros ev. split.
    + rewrite !handlerCalls_pass. reflexivity.
    + intros Hr. unfold DirectoryWatcher.step, enabled.
      cbn [loop runtime setSelf returned]. rewrite Hr. cbn [negb andb].
      rewrite iteration_event. do 2 eexists.
      split; [reflexivity |]. split; [reflexivity |].
      cbn. split; reflexivity.
Qed.

End Watcher.

(** The concrete watcher on a Write, a Rename and a Chmod of
    ["/d/f1"]. *)
Lemma dispatch_by_operation_witness :
  handlerCalls
    (emitted (iteration Demo.close (Demo.running (Cancellable false))
                (RecvEvent (mkEvent "/d/f1" Write))) Demo.start)
    = [CallOnCreate "/d/f1"] /\
  handlerCalls
    (emitted (iteration Demo.close (Demo.running (Cancellable false))
                (RecvEvent (mkEvent "/d/f1" Rename))) Demo.start)
    = [CallOnRemove "/d/f1"] /\
  emitted (iteration Demo.close (Demo.running (Cancellable false))
             (RecvEvent (mkEvent "/d/f1" Chmod))) Demo.start = [].
Proof.
  split; [| split].
  - apply (@dispatch_by_operation Demo.World nat Demo.close
             (Demo.running (Cancellable false))
             (mkEvent "/d/f1" Write) Demo.start).
    right. reflexivity.
  - apply (@dispatch_by_operation Demo.World nat Demo.close
             (Demo.running (Cancellable false))
             (mkEvent "/d/f1" Rename) Demo.start).
    right. reflexivity.
  - apply (@dispatch_by_operation Demo.World nat Demo.close
             (Demo.running (Cancellable false))
             (mkEvent "/d/f1" Chmod) Demo.start); discriminate.
Defined.

(** The concrete handlers fail on ["/d/bad"]; the event after it is
    still processed. *)
Lemma handler_error_is_logged_and_loop_goes_on_witness :
  runState
    (watcherLoop Demo.close (Demo.running (Cancellable false))
       [RecvEvent (mkEvent "/d/bad" Create);
        RecvEvent (mkEvent "/d/f1" Write)]) Demo.start
  = runState
      (watcherLoop Demo.close (Demo.running (Cancellable false))
         [RecvEvent (mkEvent "/d/f1" Write)])
      (mkRuntime
         ["log directorywatcher: create handler error: unreadable"]
         [CallOnCreate "/d/bad";
          CallLog (Cancellable false)
            "directorywatcher: create handler error: unreadable"]) /\
  step Demo.close (Select (RecvEvent (mkEvent "/d/bad" Remove)))
    (mkSystem (Demo.running (Cancellable false)) Demo.start)
  = Some (mkSystem (Demo.running (Cancellable false))
            (mkRuntime
               ["log directorywatcher: remove handler error: busy"]
               [CallOnRemove "/d/bad";
                CallLog (Cancellable false)
                  "directorywatcher: remove handler error: busy"])).
Proof.
  split.
  - apply (@handler_error_is_logged_and_loop_goes_on
             Demo.World nat Demo.close
             (Demo.running (Cancellable false))
             (mkEvent "/d/bad" Create) Demo.start
             [RecvEvent (mkEvent "/d/f1" Write)] "unreadable" []).
    + left. reflexivity.
    + reflexivity.
  - apply (@handler_error_is_logged_and_loop_goes_on
             Demo.World nat Demo.close
             (Demo.running (Cancellable false))
             (mkEvent "/d/bad" Remove) Demo.start [] "busy" []).
    + left. reflexivity.
    + reflexivity.
    + reflexivity.
Defined.

(** The concrete fsnotify with no inotify instance left, with the empty
    path, and with the directory ["/d"]. *)
Lemma New_starts_loop_iff_no_error_witness :
  (fst (runState (New Demo.newWatcher Demo.add Background Demo.cfg)
          (mkRuntime ["EMFILE"] []))
     = (None, Some "too many open files") /\
   emitted (New Demo.newWatcher Demo.add Background Demo.cfg)
     (mkRuntime ["EMFILE"] []) = []) /\
  (fst (runState
          (New Demo.newWatcher Demo.add Background
             (DirectoryWatcher.mkConfig "" Demo.onCreate Demo.onRemove
                Demo.logger)) Demo.start)
     = (None, Some "no such file or directory") /\
   emitted
     (New Demo.newWatcher Demo.add Background
        (DirectoryWatcher.mkConfig "" Demo.onCreate Demo.onRemove
           Demo.logger)) Demo.start = []) /\
  (exists l,
     emitted (New Demo.newWatcher Demo.add Background Demo.cfg) Demo.start
     = [CallGo l]).
Proof.
  split; [| split].
  - apply (@New_starts_loop_iff_no_error Demo.World nat
             Demo.newWatcher Demo.add Background Demo.cfg
             (mkRuntime ["EMFILE"] [])) with (w1 := ["EMFILE"]).
    reflexivity.
  - apply (@New_starts_loop_iff_no_error Demo.World nat
             Demo.newWatcher Demo.add Background
             (DirectoryWatcher.mkConfig "" Demo.onCreate Demo.onRemove
                Demo.logger) Demo.start)
      with (fs := 7) (w1 := []) (w2 := []); reflexivity.
  - apply (@New_starts_loop_iff_no_error Demo.World nat
             Demo.newWatcher Demo.add Background Demo.cfg Demo.start).
    reflexivity.
Defined.

(** The concrete watcher under cancellation: with the context cancelled
    [select] takes the [Done] case; before that, [Stop] is called and an
    event is still dispatched. *)
Lemma cancellation_is_observed_by_select_witness :
  (exists s',
     step Demo.close (Select CtxDone)
       (mkSystem (Demo.running (Cancellable true)) Demo.start) = Some s' /\
     returned (loop s') = true /\
     runtime s' = mkRuntime ["closed"] [CallClose 7] /\
     (forall r, step Demo.close (Select r) s' = None) /\
     (forall ins s'',
        run Demo.close ins s' = Some s'' -> runtime s'' = runtime s')) /\
  step Demo.close (Select CtxDone)
    (mkSystem (Demo.running (Cancellable false)) Demo.start) = None /\
  (exists s1,
     step Demo.close CallStop
       (mkSystem (Demo.running (Cancellable false)) Demo.start) = Some s1 /\
     runtime s1 = Demo.start /\
     Done (ctx (self (loop s1))) = true /\
     exists s2 s3,
       step Demo.close (Select (RecvEvent (mkEvent "/d/f1" Create))) s1
       = Some s2 /\
       returned (loop s2) = false /\
       step Demo.close (Select CtxDone) s2 = Some s3 /\
       returned (loop s3) = true).
Proof.
  split; [| split].
  - apply (@cancellation_is_observed_by_select Demo.World nat Demo.close
             (mkSystem (Demo.running (Cancellable true)) Demo.start));
      reflexivity.
  - apply (@cancellation_is_observed_by_select Demo.World nat Demo.close
             (mkSystem (Demo.running (Cancellable false)) Demo.start)).
    reflexivity.
  - destruct (@cancellation_is_observed_by_select Demo.World nat Demo.close
                (mkSystem (Demo.running (Cancellable false)) Demo.start))
      as (_ & _ & H).
    destruct (H CallStop (or_introl eq_refl)) as (s1 & H1 & H2 & _ & H4 & H5).
    exists s1. repeat split; try assumption.
    apply (H5 (mkEvent "/d/f1" Create)). reflexivity.
Defined.

(** An event that carries two operation bits at once, as the bit mask
    allows, equals none of the four constants and is ignored. *)
Example combined_operation_is_ignored :
  runState
    (iteration Demo.close (Demo.running (Cancellable false))
       (RecvEvent (mkEvent "/d/f1" (N.lor Create Write)))) Demo.start
  = (true, Demo.start).
Proof. reflexivity. Qed.

End DirectoryWatcherFacts.

Module SecretsFacts.
Import Go Secrets GoFacts.

(** What [getProvider] returns, case by case. *)
Lemma getProvider_cases (c : Config) :
  (cfgProvider c = "vault" -> getProvider c = (VaultProvider, None)) /\
  (cfgProvider c = "vault_csi" -> getProvider c = (VaultCsiProvider, None)) /\
  (cfgProvider c <> "vault" -> cfgProvider c <> "vault_csi" ->
   getProvider c =
   (VaultProvider,
    Some ("unknown secret provider " ++ cfgProvider c
          ++ ", must be one of ['vault', 'vault_csi']"))).
Proof.
  unfold getProvider. repeat split.
  - intros ->. reflexivity.
  - intros ->. reflexivity.
  - intros Hv Hc. apply String.eqb_neq in Hv, Hc. rewrite Hv, Hc.
    reflexivity.
Qed.

Section Store.

Variable W : Type.
Variable Secrets : Type.
Variable Reader : Type.
Variable NewSecrets : Reader -> result Secrets.
Variable openFile : string -> W -> result Reader * W.

Local Abbreviation store := (store W Secrets).
Local Abbreviation SecretMiddleware := (SecretMiddleware W Secrets).
Local Abbreviation SecretHandlerFunc := (SecretHandlerFunc W Secrets).
Local Abbreviation FileWatcher := (FileWatcher Secrets).
Local Abbreviation Runtime := (Runtime W (Call W Secrets)).
Local Abbreviation parser := (parser NewSecrets).
Local Abbreviation NewStore := (NewStore NewSecrets openFile).
Local Abbreviation InitFromConfig := (InitFromConfig NewSecrets openFile).

Lemma invoke_run (h : SecretHandlerFunc) (sec : Secrets) (rt : Runtime) :
  runState (invoke h sec) rt =
  (tt, mkRuntime (h sec (world rt)) (journal rt ++ [CallHandler h sec])).
Proof. reflexivity. Qed.

(** The loop of [secretHandler] is a left fold: the current handler is
    the accumulator, each middleware is applied to it in turn. *)
Lemma secretHandler_fold (ms : list SecretMiddleware) (s : store) :
  secretHandler ms s =
  mkStore (watcher s) (fold_left (fun h m => m h) ms (secretHandlerFunc s)).
Proof.
  revert s. induction ms as [|m ms IH]; intros s; cbn.
  - destruct s; reflexivity.
  - rewrite IH. reflexivity.
Qed.

Lemma secretHandler_watcher (ms : list SecretMiddleware) (s : store) :
  watcher (secretHandler ms s) = watcher s.
Proof. rewrite secretHandler_fold. reflexivity. Qed.

Lemma wrapLatestFirst_fold (ms : list SecretMiddleware)
    (earlier : list SecretMiddleware) :
  fold_left (fun h m => m h) ms (wrapLatestFirst earlier) =
  wrapLatestFirst (rev ms ++ earlier).
Proof.
  revert earlier. induction ms as [|m ms IH]; intros earlier.
  - reflexivity.
  - cbn [fold_left rev].
    change (m (wrapLatestFirst earlier))
      with (wrapLatestFirst (m :: earlier)).
    rewrite IH, <- app_assoc. reflexivity.
Qed.

(** Registering [ms] on top of the chain of [prev] gives the chain of
    [prev ++ ms]. *)
Lemma secretHandler_chainSpec (prev ms : list SecretMiddleware) (s : store) :
  secretHandlerFunc s = chainSpec prev ->
  secretHandlerFunc (secretHandler ms s) = chainSpec (prev ++ ms).
Proof.
  intros H. rewrite secretHandler_fold. cbn. rewrite H. unfold chainSpec.
  rewrite wrapLatestFirst_fold, rev_app_distr. reflexivity.
Qed.

Lemma AddMiddlewares_run (ms : list SecretMiddleware) (s : store)
    (fw : FileWatcher) (rt : Runtime) :
  watcher s = Some fw ->
  runState (AddMiddlewares ms s) rt =
  ((secretHandler ms s, Returns tt),
   mkRuntime
     (secretHandlerFunc (secretHandler ms s) (Get fw) (world rt))
     (journal rt ++
      [CallHandler (secretHandlerFunc (secretHandler ms s)) (Get fw)])).
Proof.
  intros Hw. unfold AddMiddlewares, getSecrets.
  rewrite secretHandler_watcher, Hw. reflexivity.
Qed.

Lemma NewStore_store (path : string) (ms : list SecretMiddleware)
    (rt rt' : Runtime) (s : store) :
  runState (NewStore path ms) rt = (Ok s, rt') ->
  (exists fw, watcher s = Some fw) /\
  secretHandlerFunc s =
    secretHandlerFunc (secretHandler ms (mkStore None nopSecretHandlerFunc)).
Proof.
  unfold Secrets.NewStore, filewatcher_New.
  cbn [bind ret Monad_state runState perform].
  destruct (openFile path (world rt)) as [[r|e] w1]; cbn; [| discriminate].
  destruct (runState (parser _ r) _) as [[sec|e] rt1]; cbn;
    [| discriminate].
  intros [= <- <-]. cbn. eauto.
Qed.

Lemma addAll_chainSpec (batches : list (list SecretMiddleware)) :
  forall (prev : list SecretMiddleware) (s : store) (fw : FileWatcher)
         (rt : Runtime),
    watcher s = Some fw ->
    secretHandlerFunc s = chainSpec prev ->
    exists s' rt',
      runState (addAll batches s) rt = ((s', Returns tt), rt') /\
      watcher s' = Some fw /\
      secretHandlerFunc s' = chainSpec (prev ++ concat batches).
Proof.
  induction batches as [|ms batches IH]; intros prev s fw rt Hw Hc.
  - exists s, rt. cbn. rewrite app_nil_r. auto.
  - cbn [addAll bind Monad_state runState concat].
    rewrite (AddMiddlewares_run ms s rt Hw). cbn [fst snd].
    destruct (IH (prev ++ ms)%list (secretHandler ms s) fw
                (mkRuntime
                   (secretHandlerFunc (secretHandler ms s) (Get fw)
                      (world rt))
                   (journal rt ++
                    [CallHandler (secretHandlerFunc (secretHandler ms s))
                       (Get fw)])))
      as (s' & rt' & Hrun & Hw' & Hc').
    + rewrite secretHandler_watcher. exact Hw.
    + apply secretHandler_chainSpec. exact Hc.
    + exists s', rt'. rewrite Hrun, app_assoc. auto.
Qed.

(** C3: [parser] calls the handler chain exactly when [NewSecrets]
    succeeds.  On a parse error it returns the error and calls nothing;
    on a successful parse it calls the store's current chain once with
    the parsed value and then returns that value, whatever the store's
    watcher holds: nothing yet, as at the first parse, or a previous
    value, equal to the new one or not. *)
Theorem parser_calls_chain_iff_parse_succeeds
    (s : store) (r : Reader) (rt : Runtime) :
  (forall err,
     NewSecrets r = Err err ->
     runState (parser s r) rt = (Err err, rt) /\
     emitted (parser s r) rt = []) /\
  (forall secrets,
     NewSecrets r = Ok secrets ->
     runState (parser s r) rt =
       (Ok secrets,
        mkRuntime (secretHandlerFunc s secrets (world rt))
                  (journal rt ++ [CallHandler (secretHandlerFunc s) secrets]))
     /\
     emitted (parser s r) rt = [CallHandler (secretHandlerFunc s) secrets])
  /\
  (emitted (parser s r) rt <> [] <-> exists secrets, NewSecrets r = Ok secrets).
Proof.
  assert (E : forall err, NewSecrets r = Err err ->
              runState (parser s r) rt = (Err err, rt)).
  { intros err H. unfold Secrets.parser. rewrite H. reflexivity. }
  assert (O : forall secrets, NewSecrets r = Ok secrets ->
              runState (parser s r) rt =
              (Ok secrets,
               mkRuntime (secretHandlerFunc s secrets (world rt))
                 (journal rt ++ [CallHandler (secretHandlerFunc s) secrets]))).
  { intros sec H. unfold Secrets.parser. rewrite H. reflexivity. }
  split; [| split].
  - intros err H. split; [exact (E err H) |].
    apply emitted_nothing. rewrite (E err H). reflexivity.
  - intros sec H. split; [exact (O sec H) |].
    apply emitted_of_journal. rewrite (O sec H). reflexivity.
  - destruct (NewSecrets r) as [sec|err].
    + rewrite (emitted_of_journal (parser s r) rt
                 [CallHandler (secretHandlerFunc s) sec])
        by (rewrite (O sec eq_refl); reflexivity).
      split; [eauto | discriminate].
    + rewrite (emitted_nothing (parser s r) rt)
        by (rewrite (E err eq_refl); reflexivity).
      split; [congruence | intros [sec [=]]].
Qed.

(** C4: the chain of a store built by [NewStore] with the middlewares
    [ms0] and then extended by [AddMiddlewares] calls with the batches
    [batches] is the spec's chain of all of them in registration order,
    [ms0 ++ concat batches]; in that chain the middleware registered
    last is applied to the chain of those registered before it, and the
    chain of no middleware is the no-op handler. *)
Theorem chain_wraps_in_registration_order
    (path : string) (ms0 : list SecretMiddleware)
    (batches : list (list SecretMiddleware))
    (rt rt0 : Runtime) (s0 : store) :
  (runState (NewStore path ms0) rt = (Ok s0, rt0) ->
   exists s1 rt1,
     runState (addAll batches s0) rt0 = ((s1, Returns tt), rt1) /\
     secretHandlerFunc s1 = chainSpec (ms0 ++ concat batches)) /\
  (forall (ms : list SecretMiddleware) (m : SecretMiddleware),
     chainSpec (ms ++ [m]) = m (chainSpec ms)) /\
  chainSpec (@nil SecretMiddleware) = nopSecretHandlerFunc.
Proof.
  split; [| split].
  - intros H. apply NewStore_store in H. destruct H as [[fw Hw] Hc].
    destruct (addAll_chainSpec batches ms0 s0 rt0 Hw)
      as (s1 & rt1 & Hrun & _ & Hc1).
    + rewrite Hc.
      apply (secretHandler_chainSpec [] ms0
               (mkStore None nopSecretHandlerFunc)).
      reflexivity.
    + eauto.
  - intros ms m. unfold chainSpec. rewrite rev_app_distr. reflexivity.
  - reflexivity.
Qed.

(** C5: on a store with a watcher, [AddMiddlewares(ms...)] first wraps
    the registered chain in the given middlewares, in order, and then
    calls the chain so obtained once with the watcher's current value,
    within the call itself; it then returns. *)
Theorem AddMiddlewares_calls_new_chain
    (ms : list SecretMiddleware) (s : store) (fw : FileWatcher)
    (rt : Runtime) :
  watcher s = Some fw ->
  let chain := fold_left (fun h m => m h) ms (secretHandlerFunc s) in
  runState (AddMiddlewares ms s) rt =
    ((mkStore (Some fw) chain, Returns tt),
     mkRuntime (chain (Get fw) (world rt))
               (journal rt ++ [CallHandler chain (Get fw)])) /\
  emitted (AddMiddlewares ms s) rt = [CallHandler chain (Get fw)] /\
  (forall prev, secretHandlerFunc s = chainSpec prev ->
                chain = chainSpec (prev ++ ms)).
Proof.
  intros Hw chain.
  assert (R : runState (AddMiddlewares ms s) rt =
              ((mkStore (Some fw) chain, Returns tt),
               mkRuntime (chain (Get fw) (world rt))
                 (journal rt ++ [CallHandler chain (Get fw)]))).
  { rewrite (AddMiddlewares_run ms s rt Hw), secretHandler_fold, Hw.
    reflexivity. }
  split; [exact R | split].
  - apply emitted_of_journal. rewrite R. reflexivity.
  - intros prev Hc.
    pose proof (secretHandler_chainSpec prev ms s Hc) as H.
    rewrite secretHandler_fold in H. exact H.
Qed.

(** C10: on a store with a watcher, [AddMiddlewares()] with no
    middleware leaves the store, and so its chain, as it was, and
    still calls that chain once with the watcher's current value. *)
Theorem AddMiddlewares_nil_still_calls_chain
    (s : store) (fw : FileWatcher) (rt : Runtime) :
  watcher s = Some fw ->
  runState (AddMiddlewares [] s) rt =
    ((s, Returns tt),
     mkRuntime (secretHandlerFunc s (Get fw) (world rt))
               (journal rt ++ [CallHandler (secretHandlerFunc s) (Get fw)]))
  /\
  emitted (AddMiddlewares [] s) rt =
    [CallHandler (secretHandlerFunc s) (Get fw)].
Proof.
  intros Hw.
  pose proof (AddMiddlewares_run [] s rt Hw) as R. cbn [secretHandler] in R.
  split; [exact R |].
  apply emitted_of_journal. rewrite R. reflexivity.
Qed.

Variables SimpleSecret VersionedSecret CredentialSecret Vault : Type.


End Store.

(** C2, evaluated on the code: [getProvider] answers the empty provider
    string with the error for unknown providers, and [InitFromConfig]
    builds a store for a provider string that [getProvider] rejects. *)
Theorem provider_is_not_resolved_by_InitFromConfig :
  getProvider (mkConfig "/secrets.json" "") =
    (VaultProvider,
     Some "unknown secret provider , must be one of ['vault', 'vault_csi']")
  /\
  snd (getProvider (mkConfig "/secrets.json" "bogus")) =
    Some "unknown secret provider bogus, must be one of ['vault', 'vault_csi']"
  /\
  runState
    (InitFromConfig Demo.newSecrets Demo.openFile
       (mkConfig "/secrets.json" "bogus")) Demo.idle =
    (Ok (Demo.loaded []),
     mkRuntime [] [CallHandler nopSecretHandlerFunc "{token}"]).
Proof. repeat split. Qed.

(** The concrete store: the empty file does not parse, the file
    ["{token}"] does. *)
Lemma parser_calls_chain_iff_parse_succeeds_witness :
  (runState (parser Demo.newSecrets (Demo.loaded [Demo.noteBefore "a"]) "")
     Demo.idle = (Err "secrets: empty document", Demo.idle) /\
   emitted (parser Demo.newSecrets (Demo.loaded [Demo.noteBefore "a"]) "")
     Demo.idle = []) /\
  emitted
    (parser Demo.newSecrets (Demo.loaded [Demo.noteBefore "a"]) "{token}")
    Demo.idle =
    [CallHandler (secretHandlerFunc (Demo.loaded [Demo.noteBefore "a"]))
       "{token}"].
Proof.
  split.
  - apply (@parser_calls_chain_iff_parse_succeeds Demo.World string string
             Demo.newSecrets (Demo.loaded [Demo.noteBefore "a"]) ""
             Demo.idle).
    reflexivity.
  - apply (@parser_calls_chain_iff_parse_succeeds Demo.World string string
             Demo.newSecrets (Demo.loaded [Demo.noteBefore "a"]) "{token}"
             Demo.idle).
    reflexivity.
Defined.

(** The concrete store, built with one middleware and extended by two
    calls. *)
Lemma chain_wraps_in_registration_order_witness :
  exists s1 rt1,
    runState
      (addAll [[Demo.noteAfter "b"]; [Demo.noteBefore "c"]]
         (Demo.loaded [Demo.noteBefore "a"]))
      (mkRuntime ["a {token}"]
         [CallHandler (secretHandlerFunc (Demo.loaded [Demo.noteBefore "a"]))
            "{token}"])
    = ((s1, Returns tt), rt1) /\
    secretHandlerFunc s1 =
      chainSpec ([Demo.noteBefore "a"] ++
                 concat [[Demo.noteAfter "b"]; [Demo.noteBefore "c"]]).
Proof.
  apply (@chain_wraps_in_registration_order Demo.World string string
           Demo.newSecrets Demo.openFile "/secrets.json"
           [Demo.noteBefore "a"]
           [[Demo.noteAfter "b"]; [Demo.noteBefore "c"]]
           Demo.idle).
  reflexivity.
Defined.

(** The concrete store with one middleware registered and one added. *)
Lemma AddMiddlewares_calls_new_chain_witness :
  emitted
    (AddMiddlewares [Demo.noteAfter "b"] (Demo.loaded [Demo.noteBefore "a"]))
    Demo.idle =
    [CallHandler
       (Demo.noteAfter "b" (Demo.noteBefore "a" nopSecretHandlerFunc))
       "{token}"] /\
  world
    (snd (runState
            (AddMiddlewares [Demo.noteAfter "b"]
               (Demo.loaded [Demo.noteBefore "a"])) Demo.idle)) =
    ["b {token}"; "a {token}"].
Proof.
  destruct (@AddMiddlewares_calls_new_chain Demo.World string
              [Demo.noteAfter "b"] (Demo.loaded [Demo.noteBefore "a"])
              (mkFileWatcher "{token}" false) Demo.idle eq_refl)
    as (R & E & _).
  split.
  - exact E.
  - rewrite R. reflexivity.
Defined.

(** The concrete store with no middleware added. *)
Lemma AddMiddlewares_nil_still_calls_chain_witness :
  runState (AddMiddlewares [] (Demo.loaded [Demo.noteBefore "a"])) Demo.idle =
    ((Demo.loaded [Demo.noteBefore "a"], Returns tt),
     mkRuntime ["a {token}"]
       [CallHandler (Demo.noteBefore "a" nopSecretHandlerFunc) "{token}"]).
Proof.
  apply (@AddMiddlewares_nil_still_calls_chain Demo.World string
           (Demo.loaded [Demo.noteBefore "a"])
           (mkFileWatcher "{token}" false) Demo.idle).
  reflexivity.
Defined.


End SecretsFacts.

Module ThriftbpFacts.
Import Thriftbp.

Lemma string_app_assoc (a b c : string) : ((a ++ b) ++ c = a ++ (b ++ c)).
Proof. induction a as [|ch a IH]; cbn; [reflexivity | now rewrite IH]. Qed.

Lemma string_app_nil_r (a : string) : a ++ "" = a.
Proof. induction a as [|ch a IH]; cbn; [reflexivity | now rewrite IH]. Qed.

Lemma index_add (m : Int32Map.t bool) (k c : Z) :
  index (Int32Map.add k true m) c = if Z.eq_dec k c then true else index m c.
Proof.
  unfold index. rewrite Int32MapFacts.add_o.
  destruct (OrderedTypeEx.Z_as_OT.eq_dec k c), (Z.eq_dec k c);
    try reflexivity; contradiction.
Qed.

Lemma index_fold (codes : list Z) :
  forall (m : Int32Map.t bool) (c : Z),
    index (fold_left (fun codeMap code => Int32Map.add code true codeMap)
             codes m) c = true
    <-> In c codes \/ index m c = true.
Proof.
  induction codes as [|k codes IH]; intros m c; cbn [fold_left In].
  - tauto.
  - rewrite IH, index_add. destruct (Z.eq_dec k c); intuition congruence.
Qed.

(** The map built from [codes] answers [true] exactly on [codes]. *)
Lemma index_makeCodeMap (codes : list Z) (c : Z) :
  index (makeCodeMap codes) c = true <-> In c codes.
Proof.
  unfold makeCodeMap. rewrite index_fold. unfold index.
  rewrite Int32MapFacts.empty_o. intuition discriminate.
Qed.

Section Classification.

Variable Details : Type.

Local Abbreviation Err := (Err Details).
Local Abbreviation baseplateError := (baseplateError Details).

(** A chain that holds a baseplate error holds a thrift exception. *)
Lemma asBaseplateError_asTException (e : Err) (bp : baseplateError) :
  asBaseplateError e = Some bp -> exists te, asTException e = Some te.
Proof.
  induction e as [msg impl | msg impl e IH | cause IH b]; cbn.
  - destruct impl; [discriminate | discriminate | eauto].
  - destruct impl; eauto.
  - exact IH.
Qed.

Lemma asTException_none (e : Err) :
  asTException e = None -> asBaseplateError e = None.
Proof.
  intros H. destruct (asBaseplateError e) as [bp|] eqn:E; [| reflexivity].
  destruct (asBaseplateError_asTException e E) as [te Hte]. congruence.
Qed.

(** X1: when the error chain holds a baseplate error, the filter answers
    whether that error's code is among [codes] and does not consult
    [next]; otherwise, and for the nil error, it answers what [next]
    answers. *)
Theorem BaseplateErrorFilter_decides_on_code
    (codes : list Z) (err : option Err) (next : RetryIfFunc Details) :
  (forall e bp,
     err = Some e -> asBaseplateError e = Some bp ->
     (BaseplateErrorFilter codes err next = true <-> In (GetCode bp) codes) /\
     (forall next', BaseplateErrorFilter codes err next' =
                    BaseplateErrorFilter codes err next)) /\
  (forall e,
     err = Some e -> asBaseplateError e = None ->
     BaseplateErrorFilter codes err next = next err) /\
  (err = None -> BaseplateErrorFilter codes err next = next None).
Proof.
  unfold BaseplateErrorFilter. split; [| split].
  - intros e bp -> ->. split; [apply index_makeCodeMap | reflexivity].
  - intros e -> ->. reflexivity.
  - intros ->. reflexivity.
Qed.

(** X2: the filter depends on [codes] as a set: two code lists with the
    same members, in any order and with any repetitions, give filters
    that agree on every error and every [next]. *)
Theorem BaseplateErrorFilter_codes_as_set
    (codes codes' : list Z) (err : option Err) (next : RetryIfFunc Details) :
  (forall c, In c codes <-> In c codes') ->
  BaseplateErrorFilter codes err next = BaseplateErrorFilter codes' err next.
Proof.
  intros H. unfold BaseplateErrorFilter. destruct err as [e|]; [| reflexivity].
  destruct (asBaseplateError e) as [bp|]; [| reflexivity].
  destruct (index (makeCodeMap codes) (GetCode bp)) eqn:A,
           (index (makeCodeMap codes') (GetCode bp)) eqn:B; try reflexivity.
  - apply index_makeCodeMap, H, index_makeCodeMap in A. congruence.
  - apply index_makeCodeMap, H, index_makeCodeMap in B. congruence.
Qed.

(** X4: [IDLExceptionSuppressor] on an error whose chain holds a
    baseplate error suppresses it exactly when the code is outside
    [500, 600), whatever wraps that error; without a thrift exception in
    the chain (and for nil) it answers [false]; with a thrift exception
    that is no baseplate error it answers whether the exception type is
    [TExceptionTypeCompiled]. *)
Theorem IDLExceptionSuppressor_cases (e : Err) :
  (forall bp,
     asBaseplateError e = Some bp ->
     (IDLExceptionSuppressor (Some e) = true
      <-> (GetCode bp < 500 \/ 600 <= GetCode bp)%Z)) /\
  (asTException e = None -> IDLExceptionSuppressor (Some e) = false) /\
  (forall te,
     asTException e = Some te -> asBaseplateError e = None ->
     (IDLExceptionSuppressor (Some e) = true <-> te = TExceptionTypeCompiled))
  /\ IDLExceptionSuppressor (@None Err) = false.
Proof.
  unfold IDLExceptionSuppressor. repeat split.
  - destruct (asBaseplateError_asTException e H) as [te ->]. rewrite H.
    rewrite orb_true_iff, Z.ltb_lt, Z.geb_le. tauto.
  - destruct (asBaseplateError_asTException e H) as [te ->]. rewrite H.
    rewrite orb_true_iff, Z.ltb_lt, Z.geb_le. tauto.
  - intros ->. reflexivity.
  - rewrite H, H0. apply N.eqb_eq.
  - rewrite H, H0. apply N.eqb_eq.
Qed.


Lemma asWrapped_wrapped (cause : Err) (bp : baseplateError) :
  asWrapped (wrappedBaseplateError cause bp) = true.
Proof. reflexivity. Qed.

(** No finite error is its own cause. *)
Lemma wrapped_neq (e : Err) (bp : baseplateError) :
  wrappedBaseplateError e bp <> e.
Proof.
  induction e as [msg impl | msg impl e IH | cause IH b]; try discriminate.
  intros [= H ->]. exact (IH H).
Qed.

(** X5: [WrapBaseplateError] wraps at most once: applied to its own
    result it returns that result unchanged, for every error and for
    nil. *)
Theorem WrapBaseplateError_idempotent (e : option Err) :
  WrapBaseplateError (WrapBaseplateError e) = WrapBaseplateError e.
Proof.
  destruct e as [e|]; [| reflexivity]. cbn.
  destruct (asWrapped e) eqn:Hw.
  - cbn. rewrite Hw. reflexivity.
  - destruct (asBaseplateError e) as [bp|] eqn:Hb; cbn.
    + reflexivity.
    + rewrite Hw, Hb. reflexivity.
Qed.

(** X7: wrapping is invisible to the classifiers: on
    [WrapBaseplateError(e)] the suppressor and every code filter answer
    what they answer on [e]. *)
Theorem WrapBaseplateError_keeps_classification
    (e : option Err) (codes : list Z) (next : RetryIfFunc Details) :
  IDLExceptionSuppressor (WrapBaseplateError e) = IDLExceptionSuppressor e /\
  BaseplateErrorFilter codes (WrapBaseplateError e) next =
    BaseplateErrorFilter codes e next.
Proof.
  destruct e as [e|]; [| split; reflexivity].
  unfold WrapBaseplateError.
  destruct (asWrapped e); [split; reflexivity |].
  destruct (asBaseplateError e) as [bp|] eqn:Hb; [| split; reflexivity].
  split.
  - unfold IDLExceptionSuppressor. cbn [asTException asBaseplateError].
    reflexivity.
  - unfold BaseplateErrorFilter. cbn [asBaseplateError]. rewrite Hb.
    reflexivity.
Qed.

End Classification.

Section DefaultCodes.

Variable Details : Type.
Variable ErrorCode_TOO_EARLY : Z.
Variable ErrorCode_TOO_MANY_REQUESTS : Z.
Variable ErrorCode_SERVICE_UNAVAILABLE : Z.

Local Abbreviation Err := (Err Details).
Local Abbreviation baseplateError := (baseplateError Details).
Local Abbreviation WithDefaultRetryableCodes :=
  (WithDefaultRetryableCodes ErrorCode_TOO_EARLY ErrorCode_TOO_MANY_REQUESTS
     ErrorCode_SERVICE_UNAVAILABLE).

(** X3: a filter built from [WithDefaultRetryableCodes(codes...)] accepts
    a baseplate error exactly when its code is one of the three default
    codes or one of [codes]; the given codes all stay in the list, after
    the defaults. *)
Theorem default_codes_are_retryable
    (codes : list Z) (e : Err) (bp : baseplateError)
    (next : RetryIfFunc Details) :
  asBaseplateError e = Some bp ->
  (BaseplateErrorFilter (WithDefaultRetryableCodes codes) (Some e) next = true
   <-> GetCode bp = ErrorCode_TOO_EARLY \/
       GetCode bp = ErrorCode_TOO_MANY_REQUESTS \/
       GetCode bp = ErrorCode_SERVICE_UNAVAILABLE \/
       In (GetCode bp) codes) /\
  skipn 3 (WithDefaultRetryableCodes codes) = codes.
Proof.
  intros H. split; [| reflexivity].
  unfold BaseplateErrorFilter. rewrite H, index_makeCodeMap.
  unfold Thriftbp.WithDefaultRetryableCodes. cbn [In app]. intuition.
Qed.

End DefaultCodes.

Section Text.

Variable Details : Type.
Variable fmt_q : string -> string.
Variable fmt_d : Z -> string.
Variable fmt_v : bool -> string.
Variable fmt_sharp_v : Details -> string.

Local Abbreviation Err := (Err Details).
Local Abbreviation baseplateError := (baseplateError Details).
Local Abbreviation wrappedError :=
  (wrappedError fmt_q fmt_d fmt_v fmt_sharp_v).
Local Abbreviation Error := (Error fmt_q fmt_d fmt_v fmt_sharp_v).
Local Abbreviation setFields := (setFields fmt_d fmt_v fmt_sharp_v).

(** X6: [WrapBaseplateError] changes an error exactly when its chain
    holds a baseplate error and no [wrappedBaseplateError] yet.  The new
    error then unwraps to the original one, is recognised as wrapped, and
    its text is built from the first baseplate error of the chain. *)
Theorem WrapBaseplateError_wraps_once (e : Err) :
  (WrapBaseplateError (Some e) <> Some e <->
   asWrapped e = false /\ asBaseplateError e <> None) /\
  (forall bp,
     asWrapped e = false -> asBaseplateError e = Some bp ->
     exists w,
       WrapBaseplateError (Some e) = Some w /\
       Unwrap w = Some e /\
       asWrapped w = true /\
       Error w = wrappedError bp).
Proof.
  split.
  - cbn. destruct (asWrapped e).
    + split; [congruence | intros [[=] _]].
    + destruct (asBaseplateError e) as [bp|].
      * split; [intros _; split; [reflexivity | discriminate] |].
        intros _ [= H]. exact (wrapped_neq H).
      * split; [congruence | intros [_ H]; congruence].
  - intros bp Hw Hb. cbn. rewrite Hw, Hb.
    eexists. repeat split.
Qed.

(** X8: the text of a wrapped error is ["baseplate.Error: "] and the
    quoted message, followed, when at least one of code, retryable and
    details is set, by the set ones in that order, separated by [", "]
    and enclosed in [" ("] and [")"]; with none set there are no
    parentheses. *)
Theorem wrappedError_format (bp : baseplateError) :
  wrappedError bp =
  "baseplate.Error: " ++ fmt_q (GetMessage bp) ++
  match setFields bp with
  | [] => ""
  | fields => " (" ++ String.concat ", " fields ++ ")"
  end.
Proof.
  unfold Thriftbp.wrappedError, Thriftbp.setFields, writeString,
    writeSeparator.
  destruct (IsSetCode bp), (IsSetRetryable bp), (IsSetDetails bp);
    cbn -[String.append];
    rewrite ?string_app_assoc, ?string_app_nil_r; cbn;
    rewrite ?string_app_assoc, ?string_app_nil_r; reflexivity.
Qed.

End Text.
End ThriftbpFacts.

Module WatcherTraceFacts.
Import Go Fsnotify DirectoryWatcher GoFacts DirectoryWatcherFacts WatcherTraces.

Section Traces.

Variable W : Type.
Variable FsWatcher : Type.
Variable fsnotify_Close : FsWatcher -> W -> W.

Local Abbreviation Loop := (Loop W FsWatcher).
Local Abbreviation Call := (Call W FsWatcher).
Local Abbreviation Runtime := (Runtime W Call).
Local Abbreviation System := (System W FsWatcher).
Local Abbreviation iteration := (iteration fsnotify_Close).
Local Abbreviation watcherLoop := (watcherLoop fsnotify_Close).
Local Abbreviation step := (step fsnotify_Close).
Local Abbreviation run := (run fsnotify_Close).

(** What one pass does, case by case on the [select] outcome. *)
Lemma iteration_cases (l : Loop) (r : Ready) (rt : Runtime) :
  exists cs w,
    runState (iteration l r) rt =
      (match r with CtxDone => false | _ => true end,
       mkRuntime w (journal rt ++ cs)) /\
    handlerCalls cs = handlersFor W FsWatcher r /\
    filter (@isClose W FsWatcher) cs =
      match r with CtxDone => [CallClose (watcher l)] | _ => [] end /\
    match r with
    | CtxDone => cs = [CallClose (watcher l)]
    | RecvError err =>
        cs = [CallLog Background ("directorywatcher: watcher error: " ++ err)]
    | RecvEvent _ => True
    end.
Proof.
  destruct r as [|err|ev].
  - do 2 eexists. cbn. repeat split.
  - do 2 eexists. cbn. repeat split.
  - cbn [handlersFor]. unfold handlerFor.
    destruct ((ev_Op ev =? Create)%N || (ev_Op ev =? Write)%N) eqn:Hc.
    + assert (H : ev_Op ev = Create \/ ev_Op ev = Write).
      { apply orb_true_iff in Hc. destruct Hc as [Hc|Hc];
          apply N.eqb_eq in Hc; auto. }
      destruct (onCreate l (ev_Name ev) (world rt)) as [[e|] w1] eqn:Hh.
      * destruct (@iteration_emitted W FsWatcher fsnotify_Close l ev rt _ _
                    (@dispatch_create_err W FsWatcher l ev rt e w1 H Hh))
          as [_ ->].
        do 2 eexists. repeat split.
      * destruct (@iteration_emitted W FsWatcher fsnotify_Close l ev rt _ _
                    (@dispatch_create_ok W FsWatcher l ev rt w1 H Hh))
          as [_ ->].
        do 2 eexists. repeat split.
    + destruct ((ev_Op ev =? Remove)%N || (ev_Op ev =? Rename)%N) eqn:Hr.
      * assert (H : ev_Op ev = Remove \/ ev_Op ev = Rename).
        { apply orb_true_iff in Hr. destruct Hr as [Hr|Hr];
            apply N.eqb_eq in Hr; auto. }
        destruct (onRemove l (ev_Name ev) (world rt)) as [[e|] w1] eqn:Hh.
        -- destruct (@iteration_emitted W FsWatcher fsnotify_Close l ev rt _ _
                    (@dispatch_remove_err W FsWatcher l ev rt e w1 H Hh))
          as [_ ->].
           do 2 eexists. repeat split.
        -- destruct (@iteration_emitted W FsWatcher fsnotify_Close l ev rt _ _
                    (@dispatch_remove_ok W FsWatcher l ev rt w1 H Hh))
          as [_ ->].
           do 2 eexists. repeat split.
      * apply orb_false_iff in Hc, Hr.
        destruct Hc as [Hc Hw], Hr as [Hr Hn].
        apply N.eqb_neq in Hc, Hw, Hr, Hn.
        exists [], (world rt).
        rewrite iteration_event,
          (@dispatch_other W FsWatcher l ev rt Hc Hw Hr Hn).
        rewrite app_nil_r. destruct rt. repeat split.
Qed.

Lemma done_in_or_not (sched : list Ready) :
  In CtxDone sched \/ ~ In CtxDone sched.
Proof.
  induction sched as [|r sched [IH|IH]]; cbn; [tauto | tauto |].
  destruct r; [tauto | |]; right; intros [H|H]; solve [discriminate | tauto].
Qed.

(** The whole loop under a schedule: how it ends, what it calls. *)
Lemma watcherLoop_trace (l : Loop) (sched : list Ready) :
  forall rt : Runtime,
  exists cs w,
    snd (runState (watcherLoop l sched) rt) = mkRuntime w (journal rt ++ cs) /\
    handlerCalls cs = flat_map (handlersFor W FsWatcher) (beforeDone sched) /\
    (In CtxDone sched ->
       fst (runState (watcherLoop l sched) rt) = Some tt /\
       exists cs', cs = (cs' ++ [CallClose (watcher l)])%list /\
                   filter (@isClose W FsWatcher) cs' = []) /\
    (~ In CtxDone sched ->
       fst (runState (watcherLoop l sched) rt) = None /\
       filter (@isClose W FsWatcher) cs = []).
Proof.
  induction sched as [|r sched IH]; intros rt.
  - exists [], (world rt). cbn. rewrite app_nil_r. destruct rt.
    repeat split; tauto.
  - rewrite watcherLoop_cons.
    destruct (iteration_cases l r rt) as (cs1 & w1 & -> & Hh & Hc & Hr).
    destruct r as [|err|ev]; cbv beta iota.
    + subst cs1. exists [CallClose (watcher l)], w1. cbn.
      repeat split; try tauto.
      exists []. split; reflexivity.
    + destruct (IH (mkRuntime w1 (journal rt ++ cs1)))
        as (cs & w & E & Hh' & Hd & Hn).
      exists (cs1 ++ cs)%list, w. cbn [journal] in E.
      rewrite E, app_assoc. split; [reflexivity |].
      unfold handlerCalls in *. rewrite !filter_app, Hh, Hh', Hc.
      cbn [beforeDone flat_map handlersFor app]. split; [reflexivity |].
      split.
      * intros [H|H]; [discriminate |]. destruct (Hd H) as (F & cs' & -> & Hf).
        split; [exact F |]. exists (cs1 ++ cs')%list. rewrite app_assoc.
        split; [reflexivity |]. rewrite filter_app, Hc, Hf. reflexivity.
      * intros H. destruct Hn as (F & Hf); [cbn in H; tauto |].
        rewrite Hf. split; [exact F | reflexivity].
    + destruct (IH (mkRuntime w1 (journal rt ++ cs1)))
        as (cs & w & E & Hh' & Hd & Hn).
      exists (cs1 ++ cs)%list, w. cbn [journal] in E.
      rewrite E, app_assoc. split; [reflexivity |].
      unfold handlerCalls in *. rewrite !filter_app, Hh, Hh', Hc.
      cbn [beforeDone flat_map handlersFor app]. split; [reflexivity |].
      split.
      * intros [H|H]; [discriminate |]. destruct (Hd H) as (F & cs' & -> & Hf).
        split; [exact F |]. exists (cs1 ++ cs')%list. rewrite app_assoc.
        split; [reflexivity |]. rewrite filter_app, Hc, Hf. reflexivity.
      * intros H. destruct Hn as (F & Hf); [cbn in H; tauto |].
        rewrite Hf. split; [exact F | reflexivity].
Qed.

Lemma watcherLoop_emitted (l : Loop) (sched : list Ready) (rt : Runtime)
    (cs : list Call) (w : W) :
  snd (runState (watcherLoop l sched) rt) = mkRuntime w (journal rt ++ cs) ->
  emitted (watcherLoop l sched) rt = cs.
Proof. intros H. apply emitted_of_journal. rewrite H. reflexivity. Qed.

(** X9: the loop returns exactly when [select] takes the [Done] case:
    under a schedule without it the goroutine is still in the loop,
    whatever errors and events arrived and whatever the handlers
    answered. *)
Theorem watcherLoop_returns_iff_done
    (l : Loop) (sched : list Ready) (rt : Runtime) :
  (fst (runState (watcherLoop l sched) rt) = Some tt <-> In CtxDone sched) /\
  (fst (runState (watcherLoop l sched) rt) = None <-> ~ In CtxDone sched).
Proof.
  destruct (watcherLoop_trace l sched rt) as (cs & w & _ & _ & Hd & Hn).
  destruct (done_in_or_not sched) as [H|H].
  - destruct (Hd H) as [-> _]. split; split; try tauto; discriminate.
  - destruct (Hn H) as [-> _]. split; split; try tauto; discriminate.
Qed.

(** X10: what the schedule holds after the first [Done] case has no
    effect: the loop has returned and neither reads nor dispatches it. *)
Theorem watcherLoop_ignores_what_follows_done
    (l : Loop) (pre post : list Ready) (rt : Runtime) :
  runState (watcherLoop l (pre ++ CtxDone :: post)) rt =
  runState (watcherLoop l (pre ++ [CtxDone])) rt.
Proof.
  revert rt. induction pre as [|r pre IH]; intros rt.
  - reflexivity.
  - cbn [app]. rewrite !watcherLoop_cons.
    destruct (runState (iteration l r) rt) as [[|] rt']; [apply IH |].
    reflexivity.
Qed.

(** X11: the loop closes the fsnotify watcher at most once, and only as
    its very last call: when the schedule holds the [Done] case the
    calls end with the one [Close], otherwise there is none. *)
Theorem watcherLoop_closes_once_at_the_end
    (l : Loop) (sched : list Ready) (rt : Runtime) :
  (In CtxDone sched ->
   exists cs,
     emitted (watcherLoop l sched) rt = (cs ++ [CallClose (watcher l)])%list /\
     forall fs, ~ In (CallClose fs) cs) /\
  (~ In CtxDone sched ->
   forall fs, ~ In (CallClose fs) (emitted (watcherLoop l sched) rt)).
Proof.
  assert (N : forall (cs : list Call) fs,
            filter (@isClose W FsWatcher) cs = [] -> ~ In (CallClose fs) cs).
  { intros cs fs Hf Hin.
    assert (Hin' : In (CallClose fs) (filter (@isClose W FsWatcher) cs))
      by (apply filter_In; split; [exact Hin | reflexivity]).
    rewrite Hf in Hin'. exact Hin'. }
  destruct (watcherLoop_trace l sched rt) as (cs & w & E & _ & Hd & Hn).
  rewrite (@watcherLoop_emitted l sched rt cs w E). split.
  - intros H. destruct (Hd H) as (_ & cs' & -> & Hf).
    exists cs'. split; [reflexivity | intros fs; apply N, Hf].
  - intros H fs. apply N, (Hn H).
Qed.

(** X12: the handler calls of the loop are those of the events received
    before the first [Done] case, one call for each Create, Write,
    Remove or Rename event and in the order of the events; errors and
    other events add none. *)
Theorem watcherLoop_calls_handlers_in_event_order
    (l : Loop) (sched : list Ready) (rt : Runtime) :
  handlerCalls (emitted (watcherLoop l sched) rt) =
  flat_map (handlersFor W FsWatcher) (beforeDone sched).
Proof.
  destruct (watcherLoop_trace l sched rt) as (cs & w & E & Hh & _).
  rewrite (@watcherLoop_emitted l sched rt cs w E). exact Hh.
Qed.

(** X13: errors of the fsnotify watcher are only logged: a schedule of
    errors makes the loop call the logger once per error, in order, with
    the background context and the prefixed text, and nothing else; the
    loop goes on. *)
Theorem watcherLoop_logs_watcher_errors
    (l : Loop) (errs : list error) (rt : Runtime) :
  emitted (watcherLoop l (map RecvError errs)) rt =
    map (fun err =>
           CallLog Background ("directorywatcher: watcher error: " ++ err))
        errs /\
  fst (runState (watcherLoop l (map RecvError errs)) rt) = None.
Proof.
  assert (G : forall rt : Runtime, exists w,
            runState (watcherLoop l (map RecvError errs)) rt =
            (None,
             mkRuntime w
               (journal rt ++
                map (fun err =>
                       CallLog Background
                         ("directorywatcher: watcher error: " ++ err)) errs))).
  { induction errs as [|err errs IH]; intros rt0.
    - exists (world rt0). cbn. rewrite app_nil_r. destruct rt0. reflexivity.
    - cbn [map]. rewrite watcherLoop_cons. cbn [iteration].
      destruct (IH (snd (runState (iteration l (RecvError err)) rt0)))
        as [w E].
      exists w. cbn in E |- *. rewrite E, <- app_assoc. reflexivity. }
  destruct (G rt) as [w E]. split.
  - apply emitted_of_journal. rewrite E. reflexivity.
  - rewrite E. reflexivity.
Qed.

(** What a transition can be. *)
Lemma step_cases (i : Input) (s s' : System) :
  step i s = Some s' ->
  (isCancel i = true /\
   s' = mkSystem (setSelf (loop s) (Stop (self (loop s)))) (runtime s)) \/
  (exists r,
     i = Select r /\ enabled (loop s) r = true /\
     s' = mkSystem
            (setReturned (loop s)
               (match r with CtxDone => true | _ => false end))
            (snd (runState (iteration (loop s) r) (runtime s)))).
Proof.
  destruct i as [| |r]; cbn.
  - intros [= <-]. left. auto.
  - intros [= <-]. left. auto.
  - destruct (enabled (loop s) r) eqn:En; [| discriminate].
    destruct (iteration_cases (loop s) r (runtime s))
      as (cs & w & E & _). rewrite E.
    intros [= <-]. right. exists r.
    split; [reflexivity | split; [exact En |]].
    rewrite E. destruct r; reflexivity.
Qed.

(** X14: along every run of the watcher, cancellation is permanent, a
    loop that has returned stays returned, a loop returns only once its
    context is cancelled, and the fsnotify watcher, the two handlers and
    the logger of the goroutine are never replaced. *)
Theorem run_keeps_watcher_invariants (ins : list Input) (s s' : System) :
  run ins s = Some s' ->
  (Done (ctx (self (loop s))) = true ->
   Done (ctx (self (loop s'))) = true) /\
  (returned (loop s) = true -> returned (loop s') = true) /\
  (returned (loop s) = false -> returned (loop s') = true ->
   Done (ctx (self (loop s'))) = true) /\
  (watcher (loop s') = watcher (loop s) /\
   onCreate (loop s') = onCreate (loop s) /\
   onRemove (loop s') = onRemove (loop s) /\
   logger (loop s') = logger (loop s)).
Proof.
  revert s. induction ins as [|i ins IH]; intros s; cbn [DirectoryWatcher.run].
  - intros [= <-]. repeat split; congruence.
  - destruct (step i s) as [s1|] eqn:St; [| discriminate].
    intros R. destruct (IH s1 R) as (D & Rt & RD & F1 & F2 & F3 & F4).
    apply step_cases in St.
    destruct St as [[_ ->] | (r & -> & En & ->)]; cbn in *.
    + repeat split; try congruence; auto.
    + unfold enabled in En. apply andb_true_iff in En. destruct En as [En1 En2].
      apply negb_true_iff in En1.
      repeat split; try congruence; auto.
      intros _ Hr'. destruct r; auto.
Qed.

Lemma run_journal (ins : list Input) :
  forall s s' : System,
    run ins s = Some s' ->
    (returned (loop s) = true -> returned (loop s') = true) /\
    watcher (loop s') = watcher (loop s) /\
    exists cs,
      journal (runtime s') = (journal (runtime s) ++ cs)%list /\
      filter (@isClose W FsWatcher) cs =
        if returned (loop s) then []
        else if returned (loop s') then [CallClose (watcher (loop s))]
        else [].
Proof.
  induction ins as [|i ins IH]; intros s s'; cbn [DirectoryWatcher.run].
  - intros [= <-]. split; [auto | split; [reflexivity |]].
    exists []. rewrite app_nil_r. split; [reflexivity |].
    destruct (returned (loop s)); reflexivity.
  - destruct (step i s) as [s1|] eqn:St; [| discriminate].
    intros R. destruct (IH s1 s' R) as (Rt & Fw & cs & J & C).
    apply step_cases in St.
    destruct St as [[_ ->] | (r & -> & En & ->)]; cbn in *.
    + split; [exact Rt | split; [exact Fw |]]. exists cs. auto.
    + unfold enabled in En. apply andb_true_iff in En.
      destruct En as [En1 En2]. apply negb_true_iff in En1. rewrite En1.
      split; [discriminate | split; [exact Fw |]].
      destruct (iteration_cases (loop s) r (runtime s))
        as (cs1 & w & E & _ & C1 & _).
      rewrite E in J. cbn in J.
      exists (cs1 ++ cs)%list. rewrite J, app_assoc.
      split; [reflexivity |]. rewrite filter_app, C1, C.
      destruct r; cbn.
      * rewrite (Rt eq_refl). reflexivity.
      * reflexivity.
      * reflexivity.
Qed.

(** X15: along every run of a watcher whose loop has not returned, the
    journal only grows, and [Close] is called on the fsnotify watcher
    exactly once if the loop has returned by the end of the run and not
    at all if it has not. *)
Theorem run_closes_exactly_when_returned (ins : list Input) (s s' : System) :
  returned (loop s) = false ->
  run ins s = Some s' ->
  exists cs,
    journal (runtime s') = (journal (runtime s) ++ cs)%list /\
    filter (@isClose W FsWatcher) cs =
      if returned (loop s') then [CallClose (watcher (loop s))] else [].
Proof.
  intros Hr R. destruct (run_journal ins s R) as (_ & _ & cs & J & C).
  rewrite Hr in C. eauto.
Qed.

Lemma run_cancels (ins : list Input) (s : System) :
  forallb isCancel ins = true ->
  Done (ctx (self (loop s))) = true ->
  ctx (self (loop s)) = Cancellable true ->
  run ins s = Some s.
Proof.
  revert s. induction ins as [|i ins IH]; intros s Hc Hd Hx; [reflexivity |].
  cbn in Hc. apply andb_true_iff in Hc. destruct Hc as [Hi Hc].
  assert (St : step i s = Some s).
  { destruct i; [| | discriminate]; cbn; destruct s as [[[c] f a b g t] rt0];
      cbn in *; subst c; reflexivity. }
  cbn [DirectoryWatcher.run]. rewrite St. apply IH; assumption.
Qed.

(** X16: [Stop] is idempotent, and the end of the enclosing scope counts
    as a [Stop]: any non-empty sequence of them leaves the watcher as a
    single [Stop] does, with the context cancelled and nothing called. *)
Theorem Stop_is_idempotent (ins : list Input) (s : System) :
  ins <> [] ->
  forallb isCancel ins = true ->
  run ins s = step CallStop s /\
  exists s1,
    step CallStop s = Some s1 /\
    Done (ctx (self (loop s1))) = true /\
    runtime s1 = runtime s /\
    returned (loop s1) = returned (loop s).
Proof.
  intros Hne Hc. destruct ins as [|i ins]; [congruence |].
  cbn in Hc. apply andb_true_iff in Hc. destruct Hc as [Hi Hc].
  split.
  - assert (St : step i s = step CallStop s)
      by (destruct i; [reflexivity | reflexivity | discriminate]).
    cbn [DirectoryWatcher.run]. rewrite St. cbn.
    apply run_cancels; [exact Hc | reflexivity | reflexivity].
  - eexists. split; [reflexivity |]. cbn. auto.
Qed.

End Traces.
End WatcherTraceFacts.

Module StoreFacts.
Import Go Secrets GoFacts SecretsFacts.

(** X17: [getProvider] succeeds exactly on the two provider strings, and
    answers [VaultCsiProvider] exactly on ["vault_csi"]: for every other
    string, the empty one included, it returns an error together with
    [VaultProvider]. *)
Theorem getProvider_succeeds_iff_known (c : Config) :
  (snd (getProvider c) = None <->
   cfgProvider c = "vault" \/ cfgProvider c = "vault_csi") /\
  (fst (getProvider c) = VaultCsiProvider <-> cfgProvider c = "vault_csi") /\
  (snd (getProvider c) <> None ->
   fst (getProvider c) = VaultProvider /\
   snd (getProvider c) =
     Some ("unknown secret provider " ++ cfgProvider c
           ++ ", must be one of ['vault', 'vault_csi']")).
Proof.
  unfold getProvider.
  destruct (String.eqb_spec (cfgProvider c) "vault") as [-> | Hv].
  - cbn. intuition (try discriminate; try congruence).
  - destruct (String.eqb_spec (cfgProvider c) "vault_csi") as [-> | Hc];
      cbn; intuition (try discriminate; try congruence).
Qed.

Section Store.

Variable W : Type.
Variable Secrets : Type.

Local Abbreviation store := (store W Secrets).
Local Abbreviation SecretMiddleware := (SecretMiddleware W Secrets).
Local Abbreviation SecretHandlerFunc := (SecretHandlerFunc W Secrets).
Local Abbreviation FileWatcher := (FileWatcher Secrets).
Local Abbreviation Runtime := (Runtime W (Call W Secrets)).

Lemma secretHandler_app (ms1 ms2 : list SecretMiddleware) (s : store) :
  secretHandler (ms1 ++ ms2) s = secretHandler ms2 (secretHandler ms1 s).
Proof.
  revert s. induction ms1 as [|m ms1 IH]; intros s; cbn; [reflexivity |].
  apply IH.
Qed.

(** X18: registering middlewares in two [AddMiddlewares] calls leaves
    the store that one call with both batches leaves; the two calls call
    the chain twice, first as it is after the first batch and then as it
    is after both, each time with the watcher's value. *)
Theorem AddMiddlewares_in_two_calls
    (ms1 ms2 : list SecretMiddleware) (s : store) (fw : FileWatcher)
    (rt : Runtime) :
  watcher s = Some fw ->
  let r1 := runState (AddMiddlewares ms1 s) rt in
  let r2 := runState (AddMiddlewares ms2 (fst (fst r1))) (snd r1) in
  fst r2 = fst (runState (AddMiddlewares (ms1 ++ ms2) s) rt) /\
  journal (snd r2) =
    (journal rt ++
     [CallHandler (secretHandlerFunc (secretHandler ms1 s)) (Get fw);
      CallHandler (secretHandlerFunc (secretHandler (ms1 ++ ms2) s))
        (Get fw)])%list.
Proof.
  intros Hw r1 r2. subst r1 r2.
  rewrite (@AddMiddlewares_run W Secrets ms1 s fw rt Hw). cbn [fst snd].
  assert (Hw1 : watcher (secretHandler ms1 s) = Some fw)
    by (rewrite secretHandler_watcher; exact Hw).
  rewrite (@AddMiddlewares_run W Secrets ms2 _ fw _ Hw1).
  rewrite (@AddMiddlewares_run W Secrets (ms1 ++ ms2) s fw rt Hw).
  rewrite secretHandler_app. cbn [fst snd journal].
  rewrite <- app_assoc. split; reflexivity.
Qed.



(** X20: a middleware that ignores [next] cuts off everything registered
    before it: once it is registered last, the chain is the handler it
    returns, whatever was registered earlier. *)
Theorem middleware_ignoring_next_replaces_chain
    (ms : list SecretMiddleware) (h : SecretHandlerFunc) (s : store) :
  secretHandlerFunc (secretHandler (ms ++ [fun _ => h]) s) = h.
Proof. rewrite secretHandler_app. reflexivity. Qed.

(** X21: the order in which registered middlewares take effect.
    Middlewares that act and then call [next] take effect in the reverse
    of the registration order, the one registered last first;
    middlewares that call [next] and then act take effect in the
    registration order. *)
Theorem middlewares_take_effect_in_order
    (fs : list (Secrets -> W -> W)) (s : store) (sec : Secrets) (w : W) :
  secretHandlerFunc
    (secretHandler
       (map (fun f (next : SecretHandlerFunc) sec w => next sec (f sec w)) fs)
       s) sec w =
    secretHandlerFunc s sec (fold_right (fun f w => f sec w) w fs) /\
  secretHandlerFunc
    (secretHandler
       (map (fun f (next : SecretHandlerFunc) sec w => f sec (next sec w)) fs)
       s) sec w =
    fold_left (fun w f => f sec w) fs (secretHandlerFunc s sec w).
Proof.
  split.
  - revert s. induction fs as [|f fs IH]; intros s; cbn; [reflexivity |].
    rewrite IH. reflexivity.
  - revert s. induction fs as [|f fs IH]; intros s; cbn; [reflexivity |].
    rewrite IH. reflexivity.
Qed.

(** X22: the CSI-backed store builds its chain as the file-backed store
    does: after [secretHandler(middlewares...)] both hold the same
    handler when they held the same handler before, and the watcher of
    the CSI store is untouched. *)
Theorem vaultCsiStore_builds_the_same_chain
    (ms : list SecretMiddleware) (c : vaultCsiStore W Secrets) (s : store) :
  csiSecretHandlerFunc c = secretHandlerFunc s ->
  csiSecretHandlerFunc (CsiStore.secretHandler ms c) =
    secretHandlerFunc (secretHandler ms s) /\
  csiWatcher (CsiStore.secretHandler ms c) = csiWatcher c.
Proof.
  revert c s. induction ms as [|m ms IH]; intros c s H; cbn.
  - auto.
  - destruct (IH (mkVaultCsiStore (csiWatcher c) (m (csiSecretHandlerFunc c)))
                (mkStore (watcher s) (m (secretHandlerFunc s)))) as [A B].
    + cbn. rewrite H. reflexivity.
    + split; [exact A | exact B].
Qed.

End Store.
End StoreFacts.

Module ThriftServerFacts.
Import Go ThriftServer.

Section Server.

Variable W : Type.
Variable TProcessor : Type.
Variable ProcessorMiddleware : Type.
Variable Logger : Type.
Variable Suppressor : Type.
Variable SampleRate : Type.
Variable Duration : Type.
Variable TServerSocket : Type.
Variable EdgeContextImpl : Type.
Variable Level : Type.
Variable Baseplate : Type.
Variable NewTServerSocket : string -> W -> result TServerSocket * W.
Variable WrapProcessor : TProcessor -> list ProcessorMiddleware -> TProcessor.
Variable HeadersToForward : list string.
Variable bpEdgeContextImpl : Baseplate -> EdgeContextImpl.
Variable bpAddr : Baseplate -> string.
Variable bpLogLevel : Baseplate -> Level.
Variable zapThriftLogger : Level -> Logger.
Variable BaseplateDefaultProcessorMiddlewares :
  DefaultProcessorMiddlewaresArgs Suppressor SampleRate EdgeContextImpl ->
  list ProcessorMiddleware.

Local Abbreviation ServerConfig :=
  (ServerConfig TProcessor ProcessorMiddleware Logger Suppressor SampleRate
     Duration TServerSocket).
Local Abbreviation NewServer :=
  (NewServer NewTServerSocket WrapProcessor HeadersToForward).
Local Abbreviation NewBaseplateServer :=
  (NewBaseplateServer NewTServerSocket WrapProcessor HeadersToForward
     bpEdgeContextImpl bpAddr bpLogLevel zapThriftLogger
     BaseplateDefaultProcessorMiddlewares).

(** X23: [NewBaseplateServer] listens on [bp.GetConfig().Addr] whatever
    the config says: it fails exactly when opening that address fails,
    with that error, and the [Socket], [Addr], [Logger] and [Timeout] of
    the config have no influence on its result.  The server it returns
    belongs to [bp], logs through the zap logger of [bp]'s level, and runs
    the processor wrapped in the default middlewares followed by the
    config's own. *)
Theorem NewBaseplateServer_uses_the_address_of_bp
    (b : Baseplate) (cfg : ServerConfig) (w : W) :
  (forall err w',
     NewTServerSocket (bpAddr b) w = (Err err, w') ->
     NewBaseplateServer b cfg w = (Err err, w')) /\
  (forall socket w',
     NewTServerSocket (bpAddr b) w = (Ok socket, w') ->
     exists s,
       NewBaseplateServer b cfg w = (Ok s, w') /\
       implBaseplate s = b /\
       srvTransport (srv s) = socket /\
       srvLogger (srv s) = Some (zapThriftLogger (bpLogLevel b)) /\
       srvForwardHeaders (srv s) = HeadersToForward /\
       srvProcessor (srv s) =
         WrapProcessor (Processor cfg)
           (BaseplateDefaultProcessorMiddlewares
              (mkDefaultProcessorMiddlewaresArgs (bpEdgeContextImpl b)
                 (ErrorSpanSuppressor cfg)
                 (ReportPayloadSizeMetricsSampleRate cfg))
            ++ Middlewares cfg)%list) /\
  (forall cfg' : ServerConfig,
     Processor cfg' = Processor cfg ->
     Middlewares cfg' = Middlewares cfg ->
     ErrorSpanSuppressor cfg' = ErrorSpanSuppressor cfg ->
     ReportPayloadSizeMetricsSampleRate cfg' =
       ReportPayloadSizeMetricsSampleRate cfg ->
     NewBaseplateServer b cfg' w = NewBaseplateServer b cfg w).
Proof.
  unfold ThriftServer.NewBaseplateServer, ThriftServer.NewServer.
  cbn [Socket Addr Processor Middlewares cfgLogger].
  split; [| split].
  - intros err w' ->. reflexivity.
  - intros socket w' ->. eexists. repeat split.
  - intros cfg' -> -> -> ->. reflexivity.
Qed.

(** X24: [NewServer] opens no socket when the config brings one: it then
    cannot fail and leaves the world as it is; without one it fails
    exactly when [thrift.NewTServerSocket(cfg.Addr)] does.  In both cases
    the processor is the config's, wrapped in the config's middlewares. *)
Theorem NewServer_prefers_the_given_socket (cfg : ServerConfig) (w : W) :
  (forall socket,
     Socket cfg = Some socket ->
     exists server,
       NewServer cfg w = (Ok server, w) /\ srvTransport server = socket) /\
  (Socket cfg = None ->
   (forall err w',
      NewTServerSocket (Addr cfg) w = (Err err, w') ->
      NewServer cfg w = (Err err, w')) /\
   (forall socket w',
      NewTServerSocket (Addr cfg) w = (Ok socket, w') ->
      exists server,
        NewServer cfg w = (Ok server, w') /\
        srvTransport server = socket)) /\
  (forall server w',
     NewServer cfg w = (Ok server, w') ->
     srvProcessor server = WrapProcessor (Processor cfg) (Middlewares cfg) /\
     srvLogger server = cfgLogger cfg /\
     srvForwardHeaders server = HeadersToForward).
Proof.
  unfold ThriftServer.NewServer. split; [| split].
  - intros socket ->. eexists. split; reflexivity.
  - intros ->. split.
    + intros err w' ->. reflexivity.
    + intros socket w' ->. eexists. split; reflexivity.
  - intros server w'. destruct (Socket cfg) as [socket|].
    + intros [= <- <-]. repeat split.
    + destruct (NewTServerSocket (Addr cfg) w) as [[socket|err] w1].
      * intros [= <- <-]. repeat split.
      * discriminate.
Qed.

End Server.
End ThriftServerFacts.

Module Scenarios.
Import Go Fsnotify GoFacts.

(** The filter for the codes 429 and 503 on the wrapped 503 error, on a
    plain error and on nil. *)
Lemma BaseplateErrorFilter_decides_on_code_witness :
  (Thriftbp.BaseplateErrorFilter [429; 503]%Z (Some ThriftDemo.callFailed)
     ThriftDemo.never = true <-> In 503%Z [429; 503]%Z) /\
  Thriftbp.BaseplateErrorFilter [429; 503]%Z (Some ThriftDemo.plainError)
    ThriftDemo.never = ThriftDemo.never (Some ThriftDemo.plainError) /\
  Thriftbp.BaseplateErrorFilter [429; 503]%Z None ThriftDemo.never =
    ThriftDemo.never None.
Proof.
  split; [| split].
  - destruct (@ThriftbpFacts.BaseplateErrorFilter_decides_on_code
                ThriftDemo.Details [429; 503]%Z (Some ThriftDemo.callFailed)
                ThriftDemo.never) as (A & _ & _).
    exact (proj1 (A ThriftDemo.callFailed ThriftDemo.unavailable
                    eq_refl eq_refl)).
  - destruct (@ThriftbpFacts.BaseplateErrorFilter_decides_on_code
                ThriftDemo.Details [429; 503]%Z (Some ThriftDemo.plainError)
                ThriftDemo.never) as (_ & B & _).
    exact (B ThriftDemo.plainError eq_refl eq_refl).
  - destruct (@ThriftbpFacts.BaseplateErrorFilter_decides_on_code
                ThriftDemo.Details [429; 503]%Z None ThriftDemo.never)
      as (_ & _ & C).
    exact (C eq_refl).
Defined.

(** The same codes, repeated and in another order. *)
Lemma BaseplateErrorFilter_codes_as_set_witness :
  Thriftbp.BaseplateErrorFilter [503; 429; 503]%Z (Some ThriftDemo.callFailed)
    ThriftDemo.never =
  Thriftbp.BaseplateErrorFilter [429; 503]%Z (Some ThriftDemo.callFailed)
    ThriftDemo.never.
Proof.
  apply (@ThriftbpFacts.BaseplateErrorFilter_codes_as_set ThriftDemo.Details
           [503; 429; 503]%Z [429; 503]%Z (Some ThriftDemo.callFailed)
           ThriftDemo.never).
  intros c. cbn. tauto.
Defined.

(** The default codes 425, 429 and 503 with the extra code 404, on the
    wrapped 503 error. *)
Lemma default_codes_are_retryable_witness :
  Thriftbp.BaseplateErrorFilter
    (Thriftbp.WithDefaultRetryableCodes 425 429 503 [404])%Z
    (Some ThriftDemo.callFailed) ThriftDemo.never = true
  <-> (503 = 425 \/ 503 = 429 \/ 503 = 503 \/ In 503 [404])%Z.
Proof.
  exact (proj1 (@ThriftbpFacts.default_codes_are_retryable ThriftDemo.Details
                  425%Z 429%Z 503%Z [404%Z] ThriftDemo.callFailed
                  ThriftDemo.unavailable ThriftDemo.never eq_refl)).
Defined.

(** The suppressor on the wrapped 503 error, on a plain error and on a
    transport exception. *)
Lemma IDLExceptionSuppressor_cases_witness :
  (Thriftbp.IDLExceptionSuppressor (Some ThriftDemo.callFailed) = true
   <-> (503 < 500 \/ 600 <= 503)%Z) /\
  Thriftbp.IDLExceptionSuppressor (Some ThriftDemo.plainError) = false /\
  (Thriftbp.IDLExceptionSuppressor (Some ThriftDemo.transportError) = true
   <-> 4%N = Thriftbp.TExceptionTypeCompiled).
Proof.
  split; [| split].
  - destruct (@ThriftbpFacts.IDLExceptionSuppressor_cases ThriftDemo.Details
                ThriftDemo.callFailed) as (A & _).
    exact (A ThriftDemo.unavailable eq_refl).
  - destruct (@ThriftbpFacts.IDLExceptionSuppressor_cases ThriftDemo.Details
                ThriftDemo.plainError) as (_ & B & _).
    exact (B eq_refl).
  - destruct (@ThriftbpFacts.IDLExceptionSuppressor_cases ThriftDemo.Details
                ThriftDemo.transportError) as (_ & _ & C & _).
    exact (C 4%N eq_refl eq_refl).
Defined.

(** Wrapping the error that holds the 503 error. *)
Lemma WrapBaseplateError_wraps_once_witness :
  exists w,
    Thriftbp.WrapBaseplateError (Some ThriftDemo.callFailed) = Some w /\
    Thriftbp.Unwrap w = Some ThriftDemo.callFailed /\
    Thriftbp.asWrapped w = true /\
    Thriftbp.Error ThriftDemo.fmt_q ThriftDemo.fmt_d ThriftDemo.fmt_v
      ThriftDemo.fmt_sharp_v w =
    Thriftbp.wrappedError ThriftDemo.fmt_q ThriftDemo.fmt_d ThriftDemo.fmt_v
      ThriftDemo.fmt_sharp_v ThriftDemo.unavailable.
Proof.
  exact (proj2 (@ThriftbpFacts.WrapBaseplateError_wraps_once
                  ThriftDemo.Details ThriftDemo.fmt_q ThriftDemo.fmt_d
                  ThriftDemo.fmt_v ThriftDemo.fmt_sharp_v
                  ThriftDemo.callFailed)
               ThriftDemo.unavailable eq_refl eq_refl).
Defined.

(** The texts of two wrapped errors. *)
Example wrappedError_texts :
  Thriftbp.wrappedError ThriftDemo.fmt_q ThriftDemo.fmt_d ThriftDemo.fmt_v
    ThriftDemo.fmt_sharp_v ThriftDemo.unavailable =
    "baseplate.Error: 'upstream down' (code=503)" /\
  Thriftbp.wrappedError ThriftDemo.fmt_q ThriftDemo.fmt_d ThriftDemo.fmt_v
    ThriftDemo.fmt_sharp_v ThriftDemo.notFound =
    "baseplate.Error: 'no user' (code=404, retryable=false, details={id:42})".
Proof. split; reflexivity. Qed.

(** A schedule with an event, the [Done] case and a further event, and
    a schedule without the [Done] case. *)
Lemma watcherLoop_closes_once_at_the_end_witness :
  (exists cs,
     emitted
       (DirectoryWatcher.watcherLoop Demo.close
          (Demo.running (DirectoryWatcher.Cancellable true))
          [DirectoryWatcher.RecvEvent (mkEvent "/d/f1" Create);
           DirectoryWatcher.CtxDone;
           DirectoryWatcher.RecvEvent (mkEvent "/d/f2" Create)])
       Demo.start = (cs ++ [DirectoryWatcher.CallClose 7])%list /\
     forall fs, ~ In (DirectoryWatcher.CallClose fs) cs) /\
  (forall fs,
     ~ In (DirectoryWatcher.CallClose fs)
         (emitted
            (DirectoryWatcher.watcherLoop Demo.close
               (Demo.running (DirectoryWatcher.Cancellable false))
               [DirectoryWatcher.RecvEvent (mkEvent "/d/f1" Create)])
            Demo.start)).
Proof.
  split.
  - apply (proj1 (@WatcherTraceFacts.watcherLoop_closes_once_at_the_end
                    Demo.World nat Demo.close
                    (Demo.running (DirectoryWatcher.Cancellable true))
                    [DirectoryWatcher.RecvEvent (mkEvent "/d/f1" Create);
                     DirectoryWatcher.CtxDone;
                     DirectoryWatcher.RecvEvent (mkEvent "/d/f2" Create)]
                    Demo.start)).
    right. left. reflexivity.
  - apply (proj2 (@WatcherTraceFacts.watcherLoop_closes_once_at_the_end
                    Demo.World nat Demo.close
                    (Demo.running (DirectoryWatcher.Cancellable false))
                    [DirectoryWatcher.RecvEvent (mkEvent "/d/f1" Create)]
                    Demo.start)).
    intros [H | H]; [discriminate H | exact H].
Defined.

(** A run of the concrete watcher: an event, [Stop], then the [Done]
    case. *)
Lemma run_keeps_watcher_invariants_witness :
  exists s',
    DirectoryWatcher.run Demo.close
      [DirectoryWatcher.Select
         (DirectoryWatcher.RecvEvent (mkEvent "/d/f1" Create));
       DirectoryWatcher.CallStop;
       DirectoryWatcher.Select DirectoryWatcher.CtxDone]
      (DirectoryWatcher.mkSystem
         (Demo.running (DirectoryWatcher.Cancellable false)) Demo.start)
    = Some s' /\
    (DirectoryWatcher.returned (DirectoryWatcher.loop s') = true ->
     DirectoryWatcher.Done
       (DirectoryWatcher.ctx
          (DirectoryWatcher.self (DirectoryWatcher.loop s'))) = true) /\
    DirectoryWatcher.watcher (DirectoryWatcher.loop s') = 7.
Proof.
  eexists. split; [reflexivity |].
  destruct (@WatcherTraceFacts.run_keeps_watcher_invariants
              Demo.World nat Demo.close
              [DirectoryWatcher.Select
                 (DirectoryWatcher.RecvEvent (mkEvent "/d/f1" Create));
               DirectoryWatcher.CallStop;
               DirectoryWatcher.Select DirectoryWatcher.CtxDone]
              (DirectoryWatcher.mkSystem
                 (Demo.running (DirectoryWatcher.Cancellable false))
                 Demo.start) _ eq_refl) as (_ & _ & A & B & _).
  split; [exact (A eq_refl) | exact B].
Defined.

(** The same run: [Close] is called once, since the loop has returned. *)
Lemma run_closes_exactly_when_returned_witness :
  exists s' cs,
    DirectoryWatcher.run Demo.close
      [DirectoryWatcher.Select
         (DirectoryWatcher.RecvEvent (mkEvent "/d/f1" Create));
       DirectoryWatcher.CallStop;
       DirectoryWatcher.Select DirectoryWatcher.CtxDone]
      (DirectoryWatcher.mkSystem
         (Demo.running (DirectoryWatcher.Cancellable false)) Demo.start)
    = Some s' /\
    journal (DirectoryWatcher.runtime s') = (journal Demo.start ++ cs)%list /\
    filter (@WatcherTraces.isClose Demo.World nat) cs =
      if DirectoryWatcher.returned (DirectoryWatcher.loop s')
      then [DirectoryWatcher.CallClose 7] else [].
Proof.
  eexists.
  destruct (@WatcherTraceFacts.run_closes_exactly_when_returned
              Demo.World nat Demo.close
              [DirectoryWatcher.Select
                 (DirectoryWatcher.RecvEvent (mkEvent "/d/f1" Create));
               DirectoryWatcher.CallStop;
               DirectoryWatcher.Select DirectoryWatcher.CtxDone]
              (DirectoryWatcher.mkSystem
                 (Demo.running (DirectoryWatcher.Cancellable false))
                 Demo.start) _ eq_refl eq_refl) as (cs & J & C).
  exists cs. split; [reflexivity | split; [exact J | exact C]].
Defined.

(** [Stop] twice and the end of the scope, on the concrete watcher. *)
Lemma Stop_is_idempotent_witness :
  DirectoryWatcher.run Demo.close
    [DirectoryWatcher.CallStop; DirectoryWatcher.CallStop;
     DirectoryWatcher.ScopeEnds]
    (DirectoryWatcher.mkSystem
       (Demo.running (DirectoryWatcher.Cancellable false)) Demo.start)
  = DirectoryWatcher.step Demo.close DirectoryWatcher.CallStop
      (DirectoryWatcher.mkSystem
         (Demo.running (DirectoryWatcher.Cancellable false)) Demo.start).
Proof.
  apply (@WatcherTraceFacts.Stop_is_idempotent Demo.World nat Demo.close
           [DirectoryWatcher.CallStop; DirectoryWatcher.CallStop;
            DirectoryWatcher.ScopeEnds]
           (DirectoryWatcher.mkSystem
              (Demo.running (DirectoryWatcher.Cancellable false)) Demo.start)).
  - discriminate.
  - reflexivity.
Defined.

(** [getProvider] on the empty provider string. *)
Lemma getProvider_succeeds_iff_known_witness :
  fst (Secrets.getProvider (Secrets.mkConfig "/secrets.json" "")) =
    Secrets.VaultProvider /\
  snd (Secrets.getProvider (Secrets.mkConfig "/secrets.json" "")) =
    Some "unknown secret provider , must be one of ['vault', 'vault_csi']".
Proof.
  apply (@StoreFacts.getProvider_succeeds_iff_known
           (Secrets.mkConfig "/secrets.json" "")).
  discriminate.
Defined.

(** Two calls on the concrete store against one call with both
    batches. *)
Lemma AddMiddlewares_in_two_calls_witness :
  fst (runState
         (Secrets.AddMiddlewares [Demo.noteBefore "c"]
            (fst (fst (runState
                         (Secrets.AddMiddlewares [Demo.noteAfter "b"]
                            (Demo.loaded [Demo.noteBefore "a"]))
                         Demo.idle))))
         (snd (runState
                 (Secrets.AddMiddlewares [Demo.noteAfter "b"]
                    (Demo.loaded [Demo.noteBefore "a"]))
                 Demo.idle))) =
  fst (runState
         (Secrets.AddMiddlewares [Demo.noteAfter "b"; Demo.noteBefore "c"]
            (Demo.loaded [Demo.noteBefore "a"]))
         Demo.idle).
Proof.
  apply (@StoreFacts.AddMiddlewares_in_two_calls Demo.World string
           [Demo.noteAfter "b"] [Demo.noteBefore "c"]
           (Demo.loaded [Demo.noteBefore "a"])
           (Secrets.mkFileWatcher "{token}" false) Demo.idle).
  reflexivity.
Defined.


(** The concrete CSI store and a file-backed store without middleware. *)
Lemma vaultCsiStore_builds_the_same_chain_witness :
  Secrets.csiSecretHandlerFunc
    (CsiStore.secretHandler [Demo.noteBefore "a"; Demo.noteAfter "b"]
       Demo.csi) =
  Secrets.secretHandlerFunc
    (Secrets.secretHandler [Demo.noteBefore "a"; Demo.noteAfter "b"]
       (Demo.loaded [])).
Proof.
  apply (@StoreFacts.vaultCsiStore_builds_the_same_chain Demo.World string
           [Demo.noteBefore "a"; Demo.noteAfter "b"] Demo.csi
           (Demo.loaded [])).
  reflexivity.
Defined.

(** A baseplate without an address and one with the address [":8080"],
    with a config that brings a socket and an address of its own. *)
Lemma NewBaseplateServer_uses_the_address_of_bp_witness :
  ThriftServer.NewBaseplateServer ServerDemo.newSocket ServerDemo.wrap
    ServerDemo.headers (fun _ => tt) fst snd ServerDemo.zap
    ServerDemo.defaults ServerDemo.noAddress ServerDemo.config []
  = (Go.Err "missing port in address", []) /\
  exists s,
    ThriftServer.NewBaseplateServer ServerDemo.newSocket ServerDemo.wrap
      ServerDemo.headers (fun _ => tt) fst snd ServerDemo.zap
      ServerDemo.defaults ServerDemo.baseplate ServerDemo.config []
    = (Go.Ok s, ["socket :8080"]) /\
    ThriftServer.implBaseplate s = ServerDemo.baseplate /\
    ThriftServer.srvTransport (ThriftServer.srv s) = ":8080" /\
    ThriftServer.srvLogger (ThriftServer.srv s) = Some "zap info" /\
    ThriftServer.srvForwardHeaders (ThriftServer.srv s) = ["Edge-Request"] /\
    ThriftServer.srvProcessor (ThriftServer.srv s) =
      "edge-context(tracing(auth(service)))".
Proof.
  split.
  - exact (proj1 (@ThriftServerFacts.NewBaseplateServer_uses_the_address_of_bp
                    ServerDemo.World string string string unit unit nat
                    string unit string (string * string)
                    ServerDemo.newSocket ServerDemo.wrap ServerDemo.headers
                    (fun _ => tt) fst snd ServerDemo.zap ServerDemo.defaults
                    ServerDemo.noAddress ServerDemo.config [])
                 "missing port in address" [] eq_refl).
  - exact (proj1
             (proj2
                (@ThriftServerFacts.NewBaseplateServer_uses_the_address_of_bp
                   ServerDemo.World string string string unit unit nat
                   string unit string (string * string)
                   ServerDemo.newSocket ServerDemo.wrap ServerDemo.headers
                   (fun _ => tt) fst snd ServerDemo.zap ServerDemo.defaults
                   ServerDemo.baseplate ServerDemo.config []))
             ":8080" ["socket :8080"] eq_refl).
Defined.

(** The config with its socket, and the same config without it. *)
Lemma NewServer_prefers_the_given_socket_witness :
  (exists server,
     ThriftServer.NewServer ServerDemo.newSocket ServerDemo.wrap
       ServerDemo.headers ServerDemo.config [] = (Go.Ok server, []) /\
     ThriftServer.srvTransport server = "unix:/run/s.sock") /\
  (exists server,
     ThriftServer.NewServer ServerDemo.newSocket ServerDemo.wrap
       ServerDemo.headers
       (ThriftServer.mkServerConfig "service" ["auth"] (Some "stdout") tt tt
          "localhost:9090" 0 None) []
     = (Go.Ok server, ["socket localhost:9090"]) /\
     ThriftServer.srvTransport server = "localhost:9090").
Proof.
  split.
  - exact (proj1 (@ThriftServerFacts.NewServer_prefers_the_given_socket
                    ServerDemo.World string string string unit unit nat
                    string ServerDemo.newSocket ServerDemo.wrap
                    ServerDemo.headers ServerDemo.config [])
                 "unix:/run/s.sock" eq_refl).
  - exact (proj2 (proj1 (proj2
                    (@ThriftServerFacts.NewServer_prefers_the_given_socket
                       ServerDemo.World string string string unit unit nat
                       string ServerDemo.newSocket ServerDemo.wrap
                       ServerDemo.headers
                       (ThriftServer.mkServerConfig "service" ["auth"]
                          (Some "stdout") tt tt "localhost:9090" 0 None) []))
                    eq_refl)
                 "localhost:9090" ["socket localhost:9090"] eq_refl).
Defined.

End Scenarios.
